(** * Verification of the v2beta object converters and of the
      organization service contract (zitadel)

    The first part embeds [internal/api/grpc/object/v2beta/converter.go]:
    every Go function is a Rocq function of the same name.  The second part
    is a model of the organization service that the integration tests of
    [org_test] drive through its gRPC client. *)

From Stdlib Require Import Ascii.
From stdpp Require Import base numbers option list strings gmap fin_maps fin_sets.

Local Open Scope Z_scope.

Set Warnings "-clear-no-such-hyp".

(** ** Go scalar types

    Go's fixed-width integers are integers of [Z]; a conversion to an
    unsigned type reduces modulo the width. *)

Definition uint32_max : Z := 2 ^ 32 - 1.

Definition is_uint32 (z : Z) : Prop := 0 ≤ z ≤ uint32_max.

(** [uint64(x)] *)
Definition uint64 (z : Z) : Z := z `mod` 2 ^ 64.

(** The value of an [int64] expression: the integer reduced into the range
    from -2^63 up to, not including, 2^63. *)
Definition int64 (z : Z) : Z := (z + 2 ^ 63) `mod` 2 ^ 64 - 2 ^ 63.

(** ** Imported packages

    The enum constants of the generated protobuf packages and of the
    [query] and [domain] packages are declared outside the converter.  Each
    package is an interface here: a class with one field per constant the
    converter names. *)

(** [pkg/grpc/object/v2beta]: [type TextQueryMethod int32]. *)
Class object_pb := {
  TextQueryMethod_TEXT_QUERY_METHOD_EQUALS : Z;
  TextQueryMethod_TEXT_QUERY_METHOD_EQUALS_IGNORE_CASE : Z;
  TextQueryMethod_TEXT_QUERY_METHOD_STARTS_WITH : Z;
  TextQueryMethod_TEXT_QUERY_METHOD_STARTS_WITH_IGNORE_CASE : Z;
  TextQueryMethod_TEXT_QUERY_METHOD_CONTAINS : Z;
  TextQueryMethod_TEXT_QUERY_METHOD_CONTAINS_IGNORE_CASE : Z;
  TextQueryMethod_TEXT_QUERY_METHOD_ENDS_WITH : Z;
  TextQueryMethod_TEXT_QUERY_METHOD_ENDS_WITH_IGNORE_CASE : Z
}.

(** [internal/query]: [type TextComparison int]. *)
Class query_pkg := {
  TextEquals : Z;
  TextEqualsIgnoreCase : Z;
  TextStartsWith : Z;
  TextStartsWithIgnoreCase : Z;
  TextContains : Z;
  TextContainsIgnoreCase : Z;
  TextEndsWith : Z;
  TextEndsWithIgnoreCase : Z
}.

(** [internal/domain]: [type OrgDomainValidationType int32]. *)
Class domain_pkg := {
  OrgDomainValidationTypeUnspecified : Z;
  OrgDomainValidationTypeHTTP : Z;
  OrgDomainValidationTypeDNS : Z
}.

(** [pkg/grpc/org/v2beta]: [type DomainValidationType int32]. *)
Class org_pb := {
  DomainValidationType_DOMAIN_VALIDATION_TYPE_UNSPECIFIED : Z;
  DomainValidationType_DOMAIN_VALIDATION_TYPE_HTTP : Z;
  DomainValidationType_DOMAIN_VALIDATION_TYPE_DNS : Z
}.

(** The eight request-side methods and the eight comparison kinds, in the
    order of the [switch] of [TextMethodToQuery]. *)
Definition text_query_methods `{object_pb} : list Z :=
  [ TextQueryMethod_TEXT_QUERY_METHOD_EQUALS;
    TextQueryMethod_TEXT_QUERY_METHOD_EQUALS_IGNORE_CASE;
    TextQueryMethod_TEXT_QUERY_METHOD_STARTS_WITH;
    TextQueryMethod_TEXT_QUERY_METHOD_STARTS_WITH_IGNORE_CASE;
    TextQueryMethod_TEXT_QUERY_METHOD_CONTAINS;
    TextQueryMethod_TEXT_QUERY_METHOD_CONTAINS_IGNORE_CASE;
    TextQueryMethod_TEXT_QUERY_METHOD_ENDS_WITH;
    TextQueryMethod_TEXT_QUERY_METHOD_ENDS_WITH_IGNORE_CASE ].

Definition text_comparisons `{query_pkg} : list Z :=
  [ TextEquals;
    TextEqualsIgnoreCase;
    TextStartsWith;
    TextStartsWithIgnoreCase;
    TextContains;
    TextContainsIgnoreCase;
    TextEndsWith;
    TextEndsWithIgnoreCase ].

(** The three values of the internal validation type and of the protobuf
    enum. *)
Definition domain_validation_types `{domain_pkg} : list Z :=
  [ OrgDomainValidationTypeUnspecified;
    OrgDomainValidationTypeHTTP;
    OrgDomainValidationTypeDNS ].

Definition pb_validation_types `{org_pb} : list Z :=
  [ DomainValidationType_DOMAIN_VALIDATION_TYPE_UNSPECIFIED;
    DomainValidationType_DOMAIN_VALIDATION_TYPE_HTTP;
    DomainValidationType_DOMAIN_VALIDATION_TYPE_DNS ].

(** A numbering of the constants with consecutive values from zero, as a
    [const ( ... = iota ... )] block or a proto3 enum gives. *)
Definition iota_object_pb : object_pb :=
  {| TextQueryMethod_TEXT_QUERY_METHOD_EQUALS := 0;
     TextQueryMethod_TEXT_QUERY_METHOD_EQUALS_IGNORE_CASE := 1;
     TextQueryMethod_TEXT_QUERY_METHOD_STARTS_WITH := 2;
     TextQueryMethod_TEXT_QUERY_METHOD_STARTS_WITH_IGNORE_CASE := 3;
     TextQueryMethod_TEXT_QUERY_METHOD_CONTAINS := 4;
     TextQueryMethod_TEXT_QUERY_METHOD_CONTAINS_IGNORE_CASE := 5;
     TextQueryMethod_TEXT_QUERY_METHOD_ENDS_WITH := 6;
     TextQueryMethod_TEXT_QUERY_METHOD_ENDS_WITH_IGNORE_CASE := 7 |}.

Definition iota_query_pkg : query_pkg :=
  {| TextEquals := 0;
     TextEqualsIgnoreCase := 1;
     TextStartsWith := 2;
     TextStartsWithIgnoreCase := 3;
     TextEndsWith := 4;
     TextEndsWithIgnoreCase := 5;
     TextContains := 6;
     TextContainsIgnoreCase := 7 |}.

Definition iota_domain_pkg : domain_pkg :=
  {| OrgDomainValidationTypeUnspecified := 0;
     OrgDomainValidationTypeHTTP := 1;
     OrgDomainValidationTypeDNS := 2 |}.

Definition iota_org_pb : org_pb :=
  {| DomainValidationType_DOMAIN_VALIDATION_TYPE_UNSPECIFIED := 0;
     DomainValidationType_DOMAIN_VALIDATION_TYPE_HTTP := 1;
     DomainValidationType_DOMAIN_VALIDATION_TYPE_DNS := 2 |}.

(** ** [time.Time] and [timestamppb.Timestamp]

    A [time.Time] is seen through its two observers [sec()] (seconds since
    January 1, year 1, UTC) and [nsec()] (nanoseconds within the second);
    the zero value [time.Time{}] has both at zero.  [sec()] is an [int64]:
    the field [sec] stands for the [int64] it reduces to, and sums of
    seconds wrap around as they do in Go. *)
Module time.
Record Time := mkTime { sec : Z; nsec : Z }.

Definition zero : Time := mkTime 0 0.

(** [func (t Time) IsZero() bool] *)
Definition IsZero (t : Time) : bool := (int64 (sec t) =? 0) && (nsec t =? 0).

(** seconds from year 1 to the Unix epoch *)
Definition unixToInternal : Z :=
  (1969 * 365 + 1969 `div` 4 - 1969 `div` 100 + 1969 `div` 400) * 86400.

(** [func (t Time) Unix() int64]: [t.sec() + internalToUnix] *)
Definition Unix (t : Time) : Z := int64 (int64 (sec t) - unixToInternal).

(** [func (t Time) Nanosecond() int] *)
Definition Nanosecond (t : Time) : Z := nsec t.
End time.

Module timestamppb.
Record Timestamp := mkTimestamp { Seconds : Z; Nanos : Z }.

(** [func New(t time.Time) *Timestamp] *)
Definition New (t : time.Time) : Timestamp :=
  mkTimestamp (time.Unix t) (time.Nanosecond t).

(** the timestamp of the Unix epoch *)
Definition epoch : Timestamp := mkTimestamp 0 0.
End timestamppb.

(** ** Messages *)

Module domain.
(** [domain.ObjectDetails], the fields the converter reads. *)
Record ObjectDetails := mkObjectDetails {
  Sequence : Z;
  EventDate : time.Time;
  CreationDate : time.Time;
  ResourceOwner : string
}.
End domain.

Module object.
(** [object.Details]; a [*timestamppb.Timestamp] field is an option, [None]
    being the nil pointer of an unset field. *)
Record Details := mkDetails {
  Sequence : Z;
  ChangeDate : option timestamppb.Timestamp;
  ResourceOwner : string;
  CreationDate : option timestamppb.Timestamp
}.

(** [details.ChangeDate = ts] *)
Definition set_ChangeDate (details : Details) (ts : timestamppb.Timestamp) : Details :=
  {| Sequence := Sequence details;
     ChangeDate := Some ts;
     ResourceOwner := ResourceOwner details;
     CreationDate := CreationDate details |}.

(** [details.CreationDate = ts] *)
Definition set_CreationDate (details : Details) (ts : timestamppb.Timestamp) : Details :=
  {| Sequence := Sequence details;
     ChangeDate := ChangeDate details;
     ResourceOwner := ResourceOwner details;
     CreationDate := Some ts |}.

(** [object.ListQuery]: [Offset uint64], [Limit uint32], [Asc bool]. *)
Record ListQuery := mkListQuery {
  Offset : Z;
  Limit : Z;
  Asc : bool
}.
End object.

(** What the data model asks of an optional timestamp field [field] filled
    from the time [t]: unset for the zero time, the converted time
    otherwise. *)
Definition omitted_iff_zero (t : time.Time) (field : option timestamppb.Timestamp) : Prop :=
  (time.IsZero t = true → field = None) ∧
  (time.IsZero t = false → field = Some (timestamppb.New t)).

(** ** The converter *)

(** [func DomainToDetailsPb(objectDetail *domain.ObjectDetails) *object.Details].
    The argument is a pointer: [None] is nil, and reading a field of nil
    panics, which the result [None] stands for. *)
Definition DomainToDetailsPb (objectDetail : option domain.ObjectDetails)
    : option object.Details :=
  objectDetail ← objectDetail;
  let details :=
    {| object.Sequence := domain.Sequence objectDetail;
       object.ChangeDate := None;
       object.ResourceOwner := domain.ResourceOwner objectDetail;
       object.CreationDate := None |} in
  let details :=
    if negb (time.IsZero (domain.EventDate objectDetail))
    then object.set_ChangeDate details (timestamppb.New (domain.EventDate objectDetail))
    else details in
  let details :=
    if negb (time.IsZero (domain.CreationDate objectDetail))
    then object.set_CreationDate details (timestamppb.New (domain.CreationDate objectDetail))
    else details in
  Some details.

(** [func ToViewDetailsPb(sequence uint64, creationDate, changeDate time.Time,
    resourceOwner string) *object.Details] *)
Definition ToViewDetailsPb (sequence : Z) (creationDate changeDate : time.Time)
    (resourceOwner : string) : object.Details :=
  let details :=
    {| object.Sequence := sequence;
       object.ChangeDate := None;
       object.ResourceOwner := resourceOwner;
       object.CreationDate := None |} in
  let details :=
    if negb (time.IsZero creationDate)
    then object.set_CreationDate details (timestamppb.New creationDate)
    else details in
  let details :=
    if negb (time.IsZero changeDate)
    then object.set_ChangeDate details (timestamppb.New changeDate)
    else details in
  details.

(** [func DomainToChangeDetailsPb(objectDetail *domain.ObjectDetails) *object.Details] *)
Definition DomainToChangeDetailsPb (objectDetail : option domain.ObjectDetails)
    : option object.Details :=
  objectDetail ← objectDetail;
  let details :=
    {| object.Sequence := domain.Sequence objectDetail;
       object.ChangeDate := None;
       object.ResourceOwner := domain.ResourceOwner objectDetail;
       object.CreationDate := None |} in
  let details :=
    if negb (time.IsZero (domain.EventDate objectDetail))
    then object.set_ChangeDate details (timestamppb.New (domain.EventDate objectDetail))
    else details in
  Some details.

(** [func ListQueryToQuery(query *object.ListQuery) (offset, limit uint64, asc bool)] *)
Definition ListQueryToQuery (query : option object.ListQuery) : Z * Z * bool :=
  match query with
  | None => (0, 0, false)
  | Some query => (object.Offset query, uint64 (object.Limit query), object.Asc query)
  end.

(** [func ListQueryToModel(query *object.ListQuery) (offset, limit uint64, asc bool)] *)
Definition ListQueryToModel (query : option object.ListQuery) : Z * Z * bool :=
  match query with
  | None => (0, 0, false)
  | Some query => (object.Offset query, uint64 (object.Limit query), object.Asc query)
  end.

(** [func TextMethodToQuery(method object.TextQueryMethod) query.TextComparison].
    A Go [switch] takes the first case equal to the tag. *)
Definition TextMethodToQuery `{object_pb, query_pkg} (method : Z) : Z :=
  if method =? TextQueryMethod_TEXT_QUERY_METHOD_EQUALS then TextEquals
  else if method =? TextQueryMethod_TEXT_QUERY_METHOD_EQUALS_IGNORE_CASE then TextEqualsIgnoreCase
  else if method =? TextQueryMethod_TEXT_QUERY_METHOD_STARTS_WITH then TextStartsWith
  else if method =? TextQueryMethod_TEXT_QUERY_METHOD_STARTS_WITH_IGNORE_CASE then TextStartsWithIgnoreCase
  else if method =? TextQueryMethod_TEXT_QUERY_METHOD_CONTAINS then TextContains
  else if method =? TextQueryMethod_TEXT_QUERY_METHOD_CONTAINS_IGNORE_CASE then TextContainsIgnoreCase
  else if method =? TextQueryMethod_TEXT_QUERY_METHOD_ENDS_WITH then TextEndsWith
  else if method =? TextQueryMethod_TEXT_QUERY_METHOD_ENDS_WITH_IGNORE_CASE then TextEndsWithIgnoreCase
  else -1.

(** [func DomainValidationTypeFromModel(validationType domain.OrgDomainValidationType)
    org_pb.DomainValidationType] *)
Definition DomainValidationTypeFromModel `{domain_pkg, org_pb} (validationType : Z) : Z :=
  if validationType =? OrgDomainValidationTypeDNS
  then DomainValidationType_DOMAIN_VALIDATION_TYPE_DNS
  else if validationType =? OrgDomainValidationTypeHTTP
  then DomainValidationType_DOMAIN_VALIDATION_TYPE_HTTP
  else DomainValidationType_DOMAIN_VALIDATION_TYPE_UNSPECIFIED.

(** [func DomainValidationTypeToDomain(validationType org_pb.DomainValidationType)
    domain.OrgDomainValidationType] *)
Definition DomainValidationTypeToDomain `{domain_pkg, org_pb} (validationType : Z) : Z :=
  if validationType =? DomainValidationType_DOMAIN_VALIDATION_TYPE_HTTP
  then OrgDomainValidationTypeHTTP
  else if validationType =? DomainValidationType_DOMAIN_VALIDATION_TYPE_DNS
  then OrgDomainValidationTypeDNS
  else OrgDomainValidationTypeUnspecified.

(** ** The rest of the converter *)

Module query.
(** [query.State], the fields the converter reads. *)
Record State := mkState {
  Sequence : Z;
  EventCreatedAt : time.Time
}.

(** [query.SearchResponse]: the count and an embedded [*State], through
    which [response.Sequence] and [response.EventCreatedAt] are read. *)
Record SearchResponse := mkSearchResponse {
  Count : Z;
  State_ : option State
}.

(** [query.Domain]; the fields [Domain] and [Sequence] of the struct are
    [Domain_] and [Sequence_] here. *)
Record Domain := mkDomain {
  CreationDate : time.Time;
  ChangeDate : time.Time;
  Sequence_ : Z;
  Domain_ : string;
  OrgID : string;
  IsVerified : bool;
  IsPrimary : bool;
  ValidationType : Z
}.
End query.

(** [object.ListDetails] *)
Record ListDetails := mkListDetails {
  TotalResult : Z;
  ProcessedSequence : Z;
  Timestamp : option timestamppb.Timestamp
}.

Module org_pb.
(** [org_pb.Domain] *)
Record Domain := mkDomain {
  OrgId : string;
  DomainName : string;
  IsVerified : bool;
  IsPrimary : bool;
  ValidationType : Z;
  Details : option object.Details
}.
End org_pb.

(** [func ToListDetails(response query.SearchResponse) *object.ListDetails];
    reading a promoted field through a nil [*State] panics, which the result
    [None] stands for. *)
Definition ToListDetails (response : query.SearchResponse) : option ListDetails :=
  state ← query.State_ response;
  let details :=
    {| TotalResult := query.Count response;
       ProcessedSequence := query.Sequence state;
       Timestamp := Some (timestamppb.New (query.EventCreatedAt state)) |} in
  Some details.

(** The request context as its getters [GetInstance()] and [GetOrgId()]
    show it (a nil request shows [false] and the empty string), and what
    [authz] reads from the call context:
    [authz.GetInstance(ctx).InstanceID()] and [authz.GetCtxData(ctx).OrgID]. *)
Record RequestContext := mkRequestContext {
  GetInstance : bool;
  GetOrgId : string
}.

Record Context := mkContext {
  InstanceID : string;
  CtxData_OrgID : string
}.

(** [func ResourceOwnerFromReq(ctx context.Context, req *object.RequestContext) string] *)
Definition ResourceOwnerFromReq (ctx : Context) (req : RequestContext) : string :=
  if GetInstance req then InstanceID ctx
  else if negb (String.eqb (GetOrgId req) "") then GetOrgId req
  else CtxData_OrgID ctx.

(** [func DomainToPb(d *query.Domain) *org_pb.Domain]; [None] for the nil
    pointer, whose first field read panics. *)
Definition DomainToPb `{domain_pkg, org_pb} (d : option query.Domain) : option org_pb.Domain :=
  d ← d;
  Some {| org_pb.OrgId := query.OrgID d;
          org_pb.DomainName := query.Domain_ d;
          org_pb.IsVerified := query.IsVerified d;
          org_pb.IsPrimary := query.IsPrimary d;
          org_pb.ValidationType := DomainValidationTypeFromModel (query.ValidationType d);
          org_pb.Details :=
            Some (ToViewDetailsPb (query.Sequence_ d) (query.CreationDate d)
                    (query.ChangeDate d) (query.OrgID d)) |}.

(** [func DomainsToPb(domains []*query.Domain) []*org_pb.Domain]: a slice of
    [len(domains)] nil pointers, filled slot by slot in the order of
    [domains]; a panic of [DomainToPb] ends the loop.  [DomainsToPb_turn] is
    one turn [d[i] = DomainToPb(domain)] of the loop. *)
Definition DomainsToPb_turn `{domain_pkg, org_pb}
    (d : option (list (option org_pb.Domain))) (p : nat * option query.Domain)
    : option (list (option org_pb.Domain)) :=
  d ← d; pb ← DomainToPb p.2; Some (<[p.1 := Some pb]> d).

Definition DomainsToPb `{domain_pkg, org_pb} (domains : list (option query.Domain))
    : option (list (option org_pb.Domain)) :=
  foldl DomainsToPb_turn (Some (replicate (length domains) None)) (imap pair domains).

(** ** The organization service

    The integration tests of [org_test] drive the organization service
    through its client; the service itself lives in packages the converter
    does not contain.  The definitions of this part are its contract as the
    specification and the expectations of those tests give it. *)


Inductive OrgState := ORG_STATE_ACTIVE | ORG_STATE_INACTIVE.

Inductive DomainValidationType :=
  | DOMAIN_VALIDATION_TYPE_UNSPECIFIED
  | DOMAIN_VALIDATION_TYPE_HTTP
  | DOMAIN_VALIDATION_TYPE_DNS.

#[global] Instance OrgState_eq_dec : EqDecision OrgState.
Proof. solve_decision. Defined.

#[global] Instance DomainValidationType_eq_dec : EqDecision DomainValidationType.
Proof. solve_decision. Defined.

(** Modelled from the spec: the error taxonomy of the organization service
    (section 7): not found, already exists, conflict, validation. *)
Inductive ErrorKind := NotFound | AlreadyExists | Conflict | Validation.

(** Modelled from the spec: the errors of the organization service that the
    lifecycle contract names. *)
Inductive Error :=
  | ErrOrgNotFound
  | ErrOrgAlreadyDeactivated
  | ErrOrgAlreadyActive
  | ErrDomainAlreadyExists
  | ErrDomainNotOnOrg
  | ErrMetadataListEmpty
  | ErrMetadataKeyNotExisting
  | ErrInvalidArgument.

Definition kind (e : Error) : ErrorKind :=
  match e with
  | ErrOrgNotFound => NotFound
  | ErrOrgAlreadyDeactivated => Conflict
  | ErrOrgAlreadyActive => Conflict
  | ErrDomainAlreadyExists => AlreadyExists
  | ErrDomainNotOnOrg => NotFound
  | ErrMetadataListEmpty => Validation
  | ErrMetadataKeyNotExisting => NotFound
  | ErrInvalidArgument => Validation
  end.


Inductive Result (A : Type) :=
  | Ok (a : A)
  | Err (e : Error).
Arguments Ok {A} a.
Arguments Err {A} e.

(** Modelled from the spec: a domain attached to an organization, keyed by
    its name in the organization's domain table. *)
Record DomainEntry := mkDomainEntry {
  IsVerified : bool;
  IsPrimary : bool;
  ValidationType : DomainValidationType
}.

Record Org := mkOrg {
  org_name : string;
  org_state : OrgState;
  org_domains : gmap string DomainEntry;
  org_metadata : gmap string (list Byte.byte)
}.

(** Modelled from the spec: the state of the organization service, which
    is kept outside the converter: the organizations that exist, by id, and
    every id the service has handed out so far. *)
Record Server := mkServer {
  orgs : gmap string Org;
  issued : gset string
}.

Definition empty_server : Server := mkServer ∅ ∅.

(** Every existing organization carries an id the service issued. *)
Definition wf (s : Server) : Prop := dom (orgs s) ⊆ issued s.

Definition put_org (s : Server) (id : string) (o : Org) : Server :=
  mkServer (<[id := o]> (orgs s)) (issued s).

Definition with_state (o : Org) (st : OrgState) : Org :=
  mkOrg (org_name o) st (org_domains o) (org_metadata o).

Definition with_name (o : Org) (name : string) : Org :=
  mkOrg name (org_state o) (org_domains o) (org_metadata o).

Definition with_domains (o : Org) (ds : gmap string DomainEntry) : Org :=
  mkOrg (org_name o) (org_state o) ds (org_metadata o).

Definition with_metadata (o : Org) (md : gmap string (list Byte.byte)) : Org :=
  mkOrg (org_name o) (org_state o) (org_domains o) md.

(** *** Response messages *)

Record Organization := mkOrganization {
  Id : string;
  Name : string;
  State : OrgState
}.

Record Domain := mkDomain {
  OrgId : string;
  DomainName : string;
  Domain_IsVerified : bool;
  Domain_IsPrimary : bool;
  Domain_ValidationType : DomainValidationType
}.

Record Metadata := mkMetadata {
  Key : string;
  Value : list Byte.byte
}.

Record GenerateOrganizationDomainValidationResponse := mkValidation {
  Token : string;
  Url : string
}.

(** The filters of a list request that the lifecycle contract uses; a
    request passes the organizations matching all of its filters. *)
Inductive OrgQuery :=
  | IdQuery (id : string)
  | StateQuery (state : OrgState).

#[global] Instance OrgQuery_eq_dec : EqDecision OrgQuery.
Proof. solve_decision. Defined.

Definition org_matches (id : string) (o : Org) (q : OrgQuery) : bool :=
  match q with
  | IdQuery i => bool_decide (i = id)
  | StateQuery st => bool_decide (st = org_state o)
  end.

(** *** Organizations *)

(** Modelled from the spec: CreateOrganization of the organization service
    (not part of the converter), without admin bootstrapping.  An empty name
    is rejected; otherwise the organization is created active under a new
    id chosen by the service. *)
Definition CreateOrganization (s : Server) (name : string) : Result string * Server :=
  if bool_decide (name = ""%string) then (Err ErrInvalidArgument, s)
  else
    let id := fresh (issued s) in
    (Ok id, mkServer (<[id := mkOrg name ORG_STATE_ACTIVE ∅ ∅]> (orgs s))
                     ({[id]} ∪ issued s)).

(** Modelled from the spec: UpdateOrganization of the organization service.
    An empty name is rejected; renaming to the same or to a new name
    succeeds. *)
Definition UpdateOrganization (s : Server) (id name : string) : Result unit * Server :=
  if bool_decide (name = ""%string) then (Err ErrInvalidArgument, s)
  else
    match orgs s !! id with
    | None => (Err ErrOrgNotFound, s)
    | Some o => (Ok (), put_org s id (with_name o name))
    end.

(** Modelled from the spec: ListOrganizations of the organization service,
    for the id and state filters. *)
Definition ListOrganizations (s : Server) (queries : list OrgQuery)
    : Result (list Organization) :=
  Ok ((λ p, mkOrganization p.1 (org_name p.2) (org_state p.2)) <$>
      List.filter (λ p, forallb (org_matches p.1 p.2) queries)
                  (map_to_list (orgs s))).

(** Modelled from the spec: DeleteOrganization of the organization service.
    Deletion is terminal: the organization leaves the state and its id stays
    issued. *)
Definition DeleteOrganization (s : Server) (id : string) : Result unit * Server :=
  match orgs s !! id with
  | None => (Err ErrOrgNotFound, s)
  | Some _ => (Ok (), mkServer (delete id (orgs s)) (issued s))
  end.

(** Modelled from the spec: DeactivateOrganization of the organization
    service.  The transition is rejected with a conflict error on an
    organization that is inactive already. *)
Definition DeactivateOrganization (s : Server) (id : string) : Result unit * Server :=
  match orgs s !! id with
  | None => (Err ErrOrgNotFound, s)
  | Some o =>
      match org_state o with
      | ORG_STATE_INACTIVE => (Err ErrOrgAlreadyDeactivated, s)
      | ORG_STATE_ACTIVE => (Ok (), put_org s id (with_state o ORG_STATE_INACTIVE))
      end
  end.

(** Modelled from the spec: ReactivateOrganization of the organization
    service.  The transition is rejected with a conflict error on an
    organization that is active already. *)
Definition ReactivateOrganization (s : Server) (id : string) : Result unit * Server :=
  match orgs s !! id with
  | None => (Err ErrOrgNotFound, s)
  | Some o =>
      match org_state o with
      | ORG_STATE_ACTIVE => (Err ErrOrgAlreadyActive, s)
      | ORG_STATE_INACTIVE => (Ok (), put_org s id (with_state o ORG_STATE_ACTIVE))
      end
  end.

(** The state of an organization as an id-filtered list request shows it. *)
Definition state_of (s : Server) (id : string) : option OrgState :=
  org_state <$> orgs s !! id.

(** *** Domains *)

(** Modelled from the spec: AddOrganizationDomain of the organization
    service.  Adding a domain the organization has already is rejected with
    an already-exists error. *)
Definition AddOrganizationDomain (s : Server) (id domain : string) : Result unit * Server :=
  match orgs s !! id with
  | None => (Err ErrOrgNotFound, s)
  | Some o =>
      match org_domains o !! domain with
      | Some _ => (Err ErrDomainAlreadyExists, s)
      | None =>
          (Ok (),
           put_org s id
             (with_domains o
                (<[domain := mkDomainEntry false false DOMAIN_VALIDATION_TYPE_UNSPECIFIED]>
                   (org_domains o))))
      end
  end.

(** Modelled from the spec: DeleteOrganizationDomain of the organization
    service.  Deleting a domain that is not on the organization is rejected
    with a doesn't-exist error. *)
Definition DeleteOrganizationDomain (s : Server) (id domain : string) : Result unit * Server :=
  match orgs s !! id with
  | None => (Err ErrDomainNotOnOrg, s)
  | Some o =>
      match org_domains o !! domain with
      | None => (Err ErrDomainNotOnOrg, s)
      | Some _ => (Ok (), put_org s id (with_domains o (delete domain (org_domains o))))
      end
  end.

(** Modelled from the spec: ListOrganizationDomains of the organization
    service: the domains attached to the organization, none for an unknown
    organization. *)
Definition ListOrganizationDomains (s : Server) (id : string) : Result (list Domain) :=
  match orgs s !! id with
  | None => Ok []
  | Some o =>
      Ok ((λ p, mkDomain id p.1 (IsVerified p.2) (IsPrimary p.2) (ValidationType p.2)) <$>
          map_to_list (org_domains o))
  end.

(** The domain is on the organization. *)
Definition attached (s : Server) (id domain : string) : Prop :=
  ∃ o, orgs s !! id = Some o ∧ is_Some (org_domains o !! domain).

(** How often a domain name occurs in a list result. *)
Definition count_domain (domain : string) (ds : list Domain) : nat :=
  length (List.filter (λ d, bool_decide (DomainName d = domain)) ds).

(** Modelled from the spec: what the organization service generates for a
    validation, which is made outside the converter.  The spec is silent on
    it and the tests of the service hold two things of it and no more: the
    token is not empty ([require.NotEmpty(t, got.Token)]) and the URL
    contains the domain ([require.Contains(t, got.Url, domain)]).  So a
    challenge is a token given by its first character and the characters
    after it, and a URL given by what stands before and after the domain;
    which characters these are is what the service generates for the
    call. *)
Record Challenge := mkChallenge {
  token_first : Ascii.ascii;
  token_rest : string;
  url_before : string;
  url_after : string
}.

Definition challenge_token (challenge : Challenge) : string :=
  String (token_first challenge) (token_rest challenge).

Definition challenge_url (challenge : Challenge) (domain : string) : string :=
  url_before challenge +:+ domain +:+ url_after challenge.

(** Modelled from the spec: GenerateOrganizationDomainValidation of the
    organization service.  [challenge] is what the service generates for
    this call.  An organization that does not exist and a domain that is
    not on the organization give the same doesn't-exist error; the spec
    leaves the unspecified validation type open, which is rejected here as
    an invalid argument. *)
Definition GenerateOrganizationDomainValidation (s : Server)
    (id domain : string) (ty : DomainValidationType) (challenge : Challenge)
    : Result GenerateOrganizationDomainValidationResponse * Server :=
  match ty with
  | DOMAIN_VALIDATION_TYPE_UNSPECIFIED => (Err ErrInvalidArgument, s)
  | _ =>
      match orgs s !! id with
      | None => (Err ErrDomainNotOnOrg, s)
      | Some o =>
          match org_domains o !! domain with
          | None => (Err ErrDomainNotOnOrg, s)
          | Some d =>
              (Ok (mkValidation (challenge_token challenge)
                                (challenge_url challenge domain)),
               put_org s id
                 (with_domains o
                    (<[domain := mkDomainEntry (IsVerified d) (IsPrimary d) ty]>
                       (org_domains o))))
          end
      end
  end.

(** *** Metadata *)

(** The metadata of an organization as a list request shows it: nothing for
    an unknown organization. *)
Definition metadata_of (s : Server) (id : string) : gmap string (list Byte.byte) :=
  match orgs s !! id with
  | None => ∅
  | Some o => org_metadata o
  end.

(** Modelled from the spec: SetOrganizationMetadata of the organization
    service: an upsert per key, later entries of a request winning. *)
Definition SetOrganizationMetadata (s : Server) (id : string) (metadata : list Metadata)
    : Result unit * Server :=
  match orgs s !! id with
  | None => (Err ErrOrgNotFound, s)
  | Some o =>
      (Ok (),
       put_org s id
         (with_metadata o
            (foldl (λ md e, <[Key e := Value e]> md) (org_metadata o) metadata)))
  end.

(** Modelled from the spec: ListOrganizationMetadata of the organization
    service: every entry of the organization, none (and no error) for an
    unknown organization. *)
Definition ListOrganizationMetadata (s : Server) (id : string) : Result (list Metadata) :=
  Ok ((λ p, mkMetadata p.1 p.2) <$> map_to_list (metadata_of s id)).

(** Modelled from the spec: DeleteOrganizationMetadata of the organization
    service.  Every key of the batch has to exist, else the batch is
    rejected as a whole; the tests show an empty batch rejected with
    "Metadata list is empty", for an unknown organization too. *)
Definition DeleteOrganizationMetadata (s : Server) (id : string) (keys : list string)
    : Result unit * Server :=
  match keys with
  | [] => (Err ErrMetadataListEmpty, s)
  | _ =>
      match orgs s !! id with
      | None => (Err ErrOrgNotFound, s)
      | Some o =>
          if forallb (λ k, bool_decide (is_Some (org_metadata o !! k))) keys
          then (Ok (),
                put_org s id
                  (with_metadata o (foldr delete (org_metadata o) keys)))
          else (Err ErrMetadataKeyNotExisting, s)
      end
  end.

(** *** Runs of the service *)

(** A call of the service, with what the service draws for it. *)
Inductive Call :=
  | CallCreateOrganization (name : string)
  | CallUpdateOrganization (id name : string)
  | CallListOrganizations (queries : list OrgQuery)
  | CallDeleteOrganization (id : string)
  | CallDeactivateOrganization (id : string)
  | CallReactivateOrganization (id : string)
  | CallAddOrganizationDomain (id domain : string)
  | CallDeleteOrganizationDomain (id domain : string)
  | CallListOrganizationDomains (id : string)
  | CallGenerateOrganizationDomainValidation
      (id domain : string) (ty : DomainValidationType) (challenge : Challenge)
  | CallSetOrganizationMetadata (id : string) (metadata : list Metadata)
  | CallListOrganizationMetadata (id : string)
  | CallDeleteOrganizationMetadata (id : string) (keys : list string).

(** The state a call leaves; the list requests only read. *)
Definition step (s : Server) (c : Call) : Server :=
  match c with
  | CallCreateOrganization name => (CreateOrganization s name).2
  | CallUpdateOrganization id name => (UpdateOrganization s id name).2
  | CallListOrganizations _ => s
  | CallDeleteOrganization id => (DeleteOrganization s id).2
  | CallDeactivateOrganization id => (DeactivateOrganization s id).2
  | CallReactivateOrganization id => (ReactivateOrganization s id).2
  | CallAddOrganizationDomain id domain => (AddOrganizationDomain s id domain).2
  | CallDeleteOrganizationDomain id domain => (DeleteOrganizationDomain s id domain).2
  | CallListOrganizationDomains _ => s
  | CallGenerateOrganizationDomainValidation id domain ty challenge =>
      (GenerateOrganizationDomainValidation s id domain ty challenge).2
  | CallSetOrganizationMetadata id metadata => (SetOrganizationMetadata s id metadata).2
  | CallListOrganizationMetadata _ => s
  | CallDeleteOrganizationMetadata id keys => (DeleteOrganizationMetadata s id keys).2
  end.

Definition run (s : Server) (calls : list Call) : Server := foldl step s calls.

(** The organization [id] has been deleted: its id is issued and no
    organization carries it. *)
Definition gone (id : string) (s : Server) : Prop :=
  wf s ∧ id ∈ issued s ∧ orgs s !! id = None.

(** ** Helpers of the integration tests *)

Section createOrgs.
Context {St R : Type}.

(** [Client.CreateOrganization(CTX, &CreateOrganizationRequest{Name: orgName})]
    as a function of the state of the service behind the client. *)
Variable Client_CreateOrganization : St → string → Result R * St.

(** [gofakeit.Name()] by the turn of the loop that draws it. *)
Variable gofakeit_Name : nat → string.

(** One turn of the loop of [createOrgs]; after a [return] with an error
    nothing more is done. *)
Definition createOrgs_turn (acc : Result (list (option R) * list string) * St) (i : nat)
    : Result (list (option R) * list string) * St :=
  match acc with
  | (Err err, s) => (Err err, s)
  | (Ok (orgs, orgsName), s) =>
      let orgName := gofakeit_Name i in
      let orgsName := <[i := orgName]> orgsName in
      match Client_CreateOrganization s orgName with
      | (Ok org, s) => (Ok (<[i := Some org]> orgs, orgsName), s)
      | (Err err, s) => (Err err, s)
      end
  end.

(** [func createOrgs(noOfOrgs int) ([]*CreateOrganizationResponse, []string, error)];
    [None] is the panic of [make] on a negative length. *)
Definition createOrgs (noOfOrgs : Z) (s : St)
    : option (Result (list (option R) * list string) * St) :=
  if noOfOrgs <? 0 then None
  else
    let n := Z.to_nat noOfOrgs in
    Some (foldl createOrgs_turn (Ok (replicate n None, replicate n ""%string), s)
                (seq 0 n)).

(** The calls of [Client_CreateOrganization] one after the other, up to the
    first that fails. *)
Fixpoint create_in_turn (names : list string) (s : St) : Result (list R) * St :=
  match names with
  | [] => (Ok [], s)
  | name :: names =>
      match Client_CreateOrganization s name with
      | (Err err, s) => (Err err, s)
      | (Ok org, s) =>
          match create_in_turn names s with
          | (Ok orgs, s) => (Ok (org :: orgs), s)
          | (Err err, s) => (Err err, s)
          end
      end
  end.
End createOrgs.

(** The count of [TestServer_ListOrganization]: the pairs of a listed and a
    wanted organization that agree in name and id. *)
Definition foundOrgs (result want : list Organization) : nat :=
  foldl (λ foundOrgs got,
           foldl (λ foundOrgs org,
                    if bool_decide (Name org = Name got) && bool_decide (Id org = Id got)
                    then S foundOrgs else foundOrgs)
                 foundOrgs want)
        0%nat result.

(** A listed and a wanted organization agree in name and id. *)
Definition agree (got org : Organization) : bool :=
  bool_decide (Name org = Name got) && bool_decide (Id org = Id got).

(** *** A sample state

    One active organization with a domain and three metadata entries. *)
Definition sample_org : Org :=
  mkOrg "Acme" ORG_STATE_ACTIVE
    {[ "www.domain.com"%string :=
         mkDomainEntry false false DOMAIN_VALIDATION_TYPE_UNSPECIFIED ]}
    (<[ "key4"%string := [Byte.x34] ]>
       (<[ "key5"%string := [Byte.x35] ]>
          {[ "key6"%string := [Byte.x36] ]})).

Definition sample_server : Server :=
  mkServer {[ "org1"%string := sample_org ]} {[ "org1"%string ]}.


(** * Properties of the converter *)

(** A Go [switch] over integer constants: decide the comparisons from the
    tag outwards and close the branches the hypotheses exclude. *)
Ltac case_switch :=
  repeat (match goal with
          | |- context [?a =? ?b] =>
              lazymatch a with
              | context [_ =? _] => fail
              | _ => destruct (Z.eqb_spec a b)
              end
          end; try congruence).

(** ** Text methods *)

Section text_method.
Context `{object_pb, query_pkg}.

Lemma TextMethodToQuery_default (method : Z) :
  method ∉ text_query_methods → TextMethodToQuery method = -1.
Proof.
  unfold text_query_methods, TextMethodToQuery. intros Hnot.
  repeat (apply not_elem_of_cons in Hnot as [? Hnot]).
  case_switch.
Qed.

(** C1: an input outside the eight recognized methods is translated to the
    sentinel -1, which is none of the eight valid comparison kinds, and
    each recognized method is translated to its own kind.  The case
    constants of the switch are distinct, as Go demands of a switch, and
    no valid kind has the value of the sentinel. *)
Theorem TextMethodToQuery_total_mapping :
  NoDup text_query_methods →
  Forall (λ k, k ≠ -1) text_comparisons →
  (∀ method, method ∉ text_query_methods →
     TextMethodToQuery method = -1 ∧
     TextMethodToQuery method ∉ text_comparisons) ∧
  TextMethodToQuery TextQueryMethod_TEXT_QUERY_METHOD_EQUALS = TextEquals ∧
  TextMethodToQuery TextQueryMethod_TEXT_QUERY_METHOD_EQUALS_IGNORE_CASE
    = TextEqualsIgnoreCase ∧
  TextMethodToQuery TextQueryMethod_TEXT_QUERY_METHOD_STARTS_WITH = TextStartsWith ∧
  TextMethodToQuery TextQueryMethod_TEXT_QUERY_METHOD_STARTS_WITH_IGNORE_CASE
    = TextStartsWithIgnoreCase ∧
  TextMethodToQuery TextQueryMethod_TEXT_QUERY_METHOD_CONTAINS = TextContains ∧
  TextMethodToQuery TextQueryMethod_TEXT_QUERY_METHOD_CONTAINS_IGNORE_CASE
    = TextContainsIgnoreCase ∧
  TextMethodToQuery TextQueryMethod_TEXT_QUERY_METHOD_ENDS_WITH = TextEndsWith ∧
  TextMethodToQuery TextQueryMethod_TEXT_QUERY_METHOD_ENDS_WITH_IGNORE_CASE
    = TextEndsWithIgnoreCase.
Proof.
  intros Hdistinct Hvalid. split.
  - intros method Hnot. rewrite (TextMethodToQuery_default _ Hnot).
    split; [reflexivity|]. intros Hin.
    rewrite Forall_forall in Hvalid. by apply (Hvalid _ Hin).
  - unfold text_query_methods in Hdistinct.
    repeat (apply NoDup_cons in Hdistinct as [? Hdistinct]).
    repeat match goal with
           | Hn : _ ∉ _ :: _ |- _ => apply not_elem_of_cons in Hn as [? Hn]
           end.
    unfold TextMethodToQuery.
    repeat split; case_switch.
Qed.
End text_method.

Lemma TextMethodToQuery_total_mapping_witness :
  NoDup (@text_query_methods iota_object_pb) ∧
  Forall (λ k, k ≠ -1) (@text_comparisons iota_query_pkg) ∧
  @TextMethodToQuery iota_object_pb iota_query_pkg 8 = -1 ∧
  (@TextMethodToQuery iota_object_pb iota_query_pkg 8 ∉ @text_comparisons iota_query_pkg) ∧
  @TextMethodToQuery iota_object_pb iota_query_pkg 4 = 6.
Proof.
  assert (Hdistinct : NoDup (@text_query_methods iota_object_pb))
    by (apply (bool_decide_unpack _); vm_compute; exact I).
  assert (Hvalid : Forall (λ k, k ≠ -1) (@text_comparisons iota_query_pkg))
    by (apply (bool_decide_unpack _); vm_compute; exact I).
  assert (Hout : 8 ∉ @text_query_methods iota_object_pb)
    by (apply (bool_decide_unpack _); vm_compute; exact I).
  destruct (@TextMethodToQuery_total_mapping iota_object_pb iota_query_pkg
              Hdistinct Hvalid) as (Hdefault & _ & _ & _ & _ & Hcontains & _).
  destruct (Hdefault 8 Hout) as [Hsentinel Hnone].
  repeat split; assumption.
Defined.

(** ** List queries *)

Lemma uint64_of_uint32 (z : Z) : is_uint32 z → uint64 z = z.
Proof.
  unfold is_uint32, uint32_max, uint64. intros Hz.
  apply Z.mod_small. lia.
Qed.

(** C5: the translator of a list query gives (0, 0, false) for the nil
    query and the offset, the limit and the ascending flag of a present
    query, the 32-bit limit keeping its value in the 64-bit result; this
    holds of both [ListQueryToQuery] and [ListQueryToModel]. *)
Theorem list_query_translation :
  ListQueryToQuery None = (0, 0, false) ∧
  ListQueryToModel None = (0, 0, false) ∧
  ∀ query : object.ListQuery, is_uint32 (object.Limit query) →
    ListQueryToQuery (Some query)
      = (object.Offset query, object.Limit query, object.Asc query) ∧
    ListQueryToModel (Some query)
      = (object.Offset query, object.Limit query, object.Asc query).
Proof.
  split; [reflexivity|]. split; [reflexivity|].
  intros query Hlimit. unfold ListQueryToQuery, ListQueryToModel.
  by rewrite (uint64_of_uint32 _ Hlimit).
Qed.

Lemma list_query_translation_witness :
  is_uint32 (object.Limit (object.mkListQuery 40 uint32_max true)) ∧
  ListQueryToQuery (Some (object.mkListQuery 40 uint32_max true))
    = (40, 4294967295, true) ∧
  ListQueryToModel (Some (object.mkListQuery 40 uint32_max true))
    = (40, 4294967295, true).
Proof.
  assert (Hlimit : is_uint32 (object.Limit (object.mkListQuery 40 uint32_max true)))
    by (vm_compute; split; discriminate).
  destruct list_query_translation as (_ & _ & Hpresent).
  destruct (Hpresent (object.mkListQuery 40 uint32_max true) Hlimit) as [Hq Hm].
  split; [exact Hlimit|]. split; [exact Hq | exact Hm].
Defined.

(** C9: [ListQueryToQuery] and [ListQueryToModel] agree on every query, the
    nil query included. *)
Theorem ListQueryToQuery_ListQueryToModel (query : option object.ListQuery) :
  ListQueryToQuery query = ListQueryToModel query.
Proof. destruct query as [q|]; reflexivity. Qed.

(** ** Domain validation types *)

Section validation_type.
Context `{domain_pkg, org_pb}.

(** C10: on the three values of the internal type and on the three values
    of the protobuf enum the two converters undo each other, and an input
    outside the three values goes to the unspecified value of the other
    side.  The three constants of either enum are distinct. *)
Theorem DomainValidationType_inverse :
  NoDup domain_validation_types →
  NoDup pb_validation_types →
  (∀ v, v ∈ domain_validation_types →
     DomainValidationTypeToDomain (DomainValidationTypeFromModel v) = v) ∧
  (∀ p, p ∈ pb_validation_types →
     DomainValidationTypeFromModel (DomainValidationTypeToDomain p) = p) ∧
  (∀ v, v ∉ domain_validation_types →
     DomainValidationTypeFromModel v
       = DomainValidationType_DOMAIN_VALIDATION_TYPE_UNSPECIFIED) ∧
  (∀ p, p ∉ pb_validation_types →
     DomainValidationTypeToDomain p = OrgDomainValidationTypeUnspecified).
Proof.
  unfold domain_validation_types, pb_validation_types.
  intros Hd Hp.
  repeat (apply NoDup_cons in Hd as [? Hd]).
  repeat (apply NoDup_cons in Hp as [? Hp]).
  repeat match goal with
         | Hn : _ ∉ _ :: _ |- _ => apply not_elem_of_cons in Hn as [? Hn]
         end.
  unfold DomainValidationTypeToDomain, DomainValidationTypeFromModel.
  repeat split.
  - intros v Hv. repeat (apply elem_of_cons in Hv as [->|Hv]);
      [ | | | by apply elem_of_nil in Hv]; case_switch.
  - intros p Hv. repeat (apply elem_of_cons in Hv as [->|Hv]);
      [ | | | by apply elem_of_nil in Hv]; case_switch.
  - intros v Hv. repeat (apply not_elem_of_cons in Hv as [? Hv]). case_switch.
  - intros p Hv. repeat (apply not_elem_of_cons in Hv as [? Hv]). case_switch.
Qed.
End validation_type.

Lemma DomainValidationType_inverse_witness :
  NoDup (@domain_validation_types iota_domain_pkg) ∧
  NoDup (@pb_validation_types iota_org_pb) ∧
  @DomainValidationTypeToDomain iota_domain_pkg iota_org_pb
    (@DomainValidationTypeFromModel iota_domain_pkg iota_org_pb 2) = 2 ∧
  @DomainValidationTypeFromModel iota_domain_pkg iota_org_pb
    (@DomainValidationTypeToDomain iota_domain_pkg iota_org_pb 1) = 1 ∧
  @DomainValidationTypeFromModel iota_domain_pkg iota_org_pb 7 = 0.
Proof.
  assert (Hd : NoDup (@domain_validation_types iota_domain_pkg))
    by (apply (bool_decide_unpack _); vm_compute; exact I).
  assert (Hp : NoDup (@pb_validation_types iota_org_pb))
    by (apply (bool_decide_unpack _); vm_compute; exact I).
  destruct (@DomainValidationType_inverse iota_domain_pkg iota_org_pb Hd Hp)
    as (Hto & Hfrom & Hother & _).
  split; [exact Hd|]. split; [exact Hp|]. split; [|split].
  - apply (Hto 2). apply (bool_decide_unpack _). vm_compute. exact I.
  - apply (Hfrom 1). apply (bool_decide_unpack _). vm_compute. exact I.
  - apply (Hother 7). apply (bool_decide_unpack _). vm_compute. exact I.
Defined.

(** ** Details *)

Lemma IsZero_zero (t : time.Time) :
  time.IsZero t = true ↔ int64 (time.sec t) = 0 ∧ time.nsec t = 0.
Proof.
  unfold time.IsZero. rewrite andb_true_iff, !Z.eqb_eq. reflexivity.
Qed.

Lemma omitted_iff_zero_field (t : time.Time) :
  omitted_iff_zero t
    (if negb (time.IsZero t) then Some (timestamppb.New t) else None).
Proof. unfold omitted_iff_zero. destruct (time.IsZero t); simpl; split; congruence. Qed.

(** The zero time leaves the field nil; the Unix epoch, which is not the
    zero time, is written as the timestamp of zero seconds. *)
Example DomainToChangeDetailsPb_examples :
  DomainToChangeDetailsPb
      (Some (domain.mkObjectDetails 7 time.zero time.zero "org"))
    = Some (object.mkDetails 7 None "org" None) ∧
  DomainToChangeDetailsPb
      (Some (domain.mkObjectDetails 7 (time.mkTime time.unixToInternal 0) time.zero "org"))
    = Some (object.mkDetails 7 (Some timestamppb.epoch) "org" None).
Proof. split; reflexivity. Qed.

(** C4: each of the three converters leaves a timestamp field of the
    details unset when the time it is filled from is the zero time and sets
    it to the converted time otherwise: [ChangeDate] from the event date and
    [CreationDate] from the creation date in [DomainToDetailsPb], both dates
    in [ToViewDetailsPb], and [ChangeDate] from the event date in
    [DomainToChangeDetailsPb], which fills no [CreationDate]. *)
Theorem details_timestamp_omitted_iff_zero :
  (∀ objectDetail, ∃ details,
     DomainToDetailsPb (Some objectDetail) = Some details ∧
     omitted_iff_zero (domain.EventDate objectDetail) (object.ChangeDate details) ∧
     omitted_iff_zero (domain.CreationDate objectDetail) (object.CreationDate details)) ∧
  (∀ sequence creationDate changeDate resourceOwner,
     let details := ToViewDetailsPb sequence creationDate changeDate resourceOwner in
     omitted_iff_zero creationDate (object.CreationDate details) ∧
     omitted_iff_zero changeDate (object.ChangeDate details)) ∧
  (∀ objectDetail, ∃ details,
     DomainToChangeDetailsPb (Some objectDetail) = Some details ∧
     omitted_iff_zero (domain.EventDate objectDetail) (object.ChangeDate details) ∧
     object.CreationDate details = None).
Proof.
  split; [|split].
  - intros od. eexists. split; [reflexivity|].
    pose proof (omitted_iff_zero_field (domain.EventDate od)) as He.
    pose proof (omitted_iff_zero_field (domain.CreationDate od)) as Hc.
    destruct (time.IsZero (domain.EventDate od)),
             (time.IsZero (domain.CreationDate od)); simpl in *; by split.
  - intros sequence creationDate changeDate resourceOwner details. subst details.
    unfold ToViewDetailsPb.
    pose proof (omitted_iff_zero_field creationDate) as Hc.
    pose proof (omitted_iff_zero_field changeDate) as He.
    destruct (time.IsZero creationDate), (time.IsZero changeDate);
      simpl in *; by split.
  - intros od. eexists. split; [reflexivity|].
    pose proof (omitted_iff_zero_field (domain.EventDate od)) as He.
    destruct (time.IsZero (domain.EventDate od)); simpl in *; by split.
Qed.

(** [DomainToChangeDetailsPb] does not follow the omit-or-set rule for the
    creation date: object details whose creation date is not the zero time
    are converted to details without [CreationDate], so the field is not set
    to the converted creation date. *)
Lemma DomainToChangeDetailsPb_creation_date_unset :
  time.IsZero (time.mkTime 5 0) = false ∧
  DomainToChangeDetailsPb
      (Some (domain.mkObjectDetails 7 time.zero (time.mkTime 5 0) "org"))
    = Some (object.mkDetails 7 None "org" None) ∧
  ¬ (∀ objectDetail details,
       DomainToChangeDetailsPb (Some objectDetail) = Some details →
       omitted_iff_zero (domain.EventDate objectDetail) (object.ChangeDate details) ∧
       omitted_iff_zero (domain.CreationDate objectDetail) (object.CreationDate details)).
Proof.
  split; [reflexivity|]. split; [reflexivity|]. intros Hclaim.
  destruct (Hclaim (domain.mkObjectDetails 7 time.zero (time.mkTime 5 0) "org")
              (object.mkDetails 7 None "org" None) eq_refl) as [_ [_ Hset]].
  specialize (Hset eq_refl). discriminate Hset.
Qed.

(** * Properties of the organization service *)

(** ** Strings *)




Lemma prefix_refl (d : string) : String.prefix d d = true.
Proof.
  induction d as [|a d IH]; simpl; [reflexivity|].
  destruct (Ascii.ascii_dec a a); [exact IH | congruence].
Qed.


(** ** Activation state *)

Lemma state_of_Some (s : Server) (id : string) (st : OrgState) :
  state_of s id = Some st → ∃ o, orgs s !! id = Some o ∧ org_state o = st.
Proof.
  unfold state_of. destruct (orgs s !! id) as [o|]; simpl; [|discriminate].
  intros [= <-]. by exists o.
Qed.

Lemma state_of_put_org (s : Server) (id : string) (o : Org) :
  state_of (put_org s id o) id = Some (org_state o).
Proof. unfold state_of, put_org. simpl. by rewrite lookup_insert_eq. Qed.

(** C3: deactivating an organization that is inactive and reactivating one
    that is active fail with a conflict error and leave the service state,
    and with it the state of the organization, as it was; deactivating an
    active organization and reactivating an inactive one succeed and switch
    its state. *)
Theorem deactivate_reactivate_transitions (s : Server) (id : string) :
  (state_of s id = Some ORG_STATE_INACTIVE →
     ∃ e s', DeactivateOrganization s id = (Err e, s') ∧ kind e = Conflict ∧
             s' = s ∧ state_of s' id = Some ORG_STATE_INACTIVE) ∧
  (state_of s id = Some ORG_STATE_ACTIVE →
     ∃ e s', ReactivateOrganization s id = (Err e, s') ∧ kind e = Conflict ∧
             s' = s ∧ state_of s' id = Some ORG_STATE_ACTIVE) ∧
  (state_of s id = Some ORG_STATE_ACTIVE →
     ∃ s', DeactivateOrganization s id = (Ok (), s') ∧
           state_of s' id = Some ORG_STATE_INACTIVE) ∧
  (state_of s id = Some ORG_STATE_INACTIVE →
     ∃ s', ReactivateOrganization s id = (Ok (), s') ∧
           state_of s' id = Some ORG_STATE_ACTIVE).
Proof.
  unfold DeactivateOrganization, ReactivateOrganization.
  repeat split; intros Hst; destruct (state_of_Some _ _ _ Hst) as (o & -> & ->).
  - by exists ErrOrgAlreadyDeactivated, s.
  - by exists ErrOrgAlreadyActive, s.
  - eexists. split; [reflexivity|]. apply state_of_put_org.
  - eexists. split; [reflexivity|]. apply state_of_put_org.
Qed.

Lemma deactivate_reactivate_transitions_witness :
  state_of sample_server "org1" = Some ORG_STATE_ACTIVE ∧
  (∃ e s', ReactivateOrganization sample_server "org1" = (Err e, s') ∧
           kind e = Conflict ∧ s' = sample_server ∧
           state_of s' "org1" = Some ORG_STATE_ACTIVE) ∧
  (∃ s', DeactivateOrganization sample_server "org1" = (Ok (), s') ∧
         state_of s' "org1" = Some ORG_STATE_INACTIVE).
Proof.
  assert (Hactive : state_of sample_server "org1" = Some ORG_STATE_ACTIVE)
    by (vm_compute; reflexivity).
  destruct (deactivate_reactivate_transitions sample_server "org1")
    as (_ & Hre & Hde & _).
  split; [exact Hactive|]. split; [exact (Hre Hactive) | exact (Hde Hactive)].
Defined.

(** ** Domains *)

Lemma count_domain_absent (id domain : string) (l : list (string * DomainEntry)) :
  domain ∉ l.*1 →
  count_domain domain
    ((λ p, mkDomain id p.1 (IsVerified p.2) (IsPrimary p.2) (ValidationType p.2)) <$> l)
  = 0%nat.
Proof.
  unfold count_domain. induction l as [|[k e] l IH]; simpl; [done|].
  intros [Hne Hnot]%not_elem_of_cons.
  rewrite bool_decide_eq_false_2 by done. by apply IH.
Qed.

Lemma count_domain_present (id domain : string) (l : list (string * DomainEntry)) :
  NoDup l.*1 → domain ∈ l.*1 →
  count_domain domain
    ((λ p, mkDomain id p.1 (IsVerified p.2) (IsPrimary p.2) (ValidationType p.2)) <$> l)
  = 1%nat.
Proof.
  induction l as [|[k e] l IH]; simpl.
  - intros _ Hin. by apply elem_of_nil in Hin.
  - intros [Hk Hnd]%NoDup_cons Hin. unfold count_domain in *. simpl.
    destruct (decide (k = domain)) as [->|Hne].
    + rewrite bool_decide_eq_true_2 by done. simpl. f_equal.
      by apply (count_domain_absent id).
    + rewrite bool_decide_eq_false_2 by done.
      apply elem_of_cons in Hin as [Heq|Hin]; [congruence|]. by apply IH.
Qed.

Lemma attached_listed_once (s : Server) (id domain : string) :
  attached s id domain →
  ∃ ds, ListOrganizationDomains s id = Ok ds ∧ count_domain domain ds = 1%nat.
Proof.
  intros (o & Ho & Hd). unfold ListOrganizationDomains. rewrite Ho.
  eexists. split; [reflexivity|]. apply count_domain_present.
  - apply NoDup_fst_map_to_list.
  - destruct Hd as [e He]. apply list_elem_of_fmap.
    exists (domain, e). split; [done|]. by apply elem_of_map_to_list.
Qed.

Lemma attached_rejected (s : Server) (id domain : string) :
  attached s id domain →
  AddOrganizationDomain s id domain = (Err ErrDomainAlreadyExists, s).
Proof.
  intros (o & Ho & [e He]). unfold AddOrganizationDomain. by rewrite Ho, He.
Qed.

Lemma added_attached (s s1 : Server) (id domain : string) :
  AddOrganizationDomain s id domain = (Ok (), s1) → attached s1 id domain.
Proof.
  unfold AddOrganizationDomain, attached.
  destruct (orgs s !! id) as [o|]; [|discriminate].
  destruct (org_domains o !! domain); [discriminate|].
  intros [= <-]. eexists. unfold put_org; simpl. rewrite lookup_insert_eq.
  split; [reflexivity|]. simpl. rewrite lookup_insert_eq. by eexists.
Qed.

(** C6: adding a domain that is on the organization already, as it is after
    a first successful add, fails with the already-exists error and changes
    nothing, and the list of the organization's domains names the domain
    exactly once. *)
Theorem add_domain_twice (s : Server) (id domain : string) :
  kind ErrDomainAlreadyExists = AlreadyExists ∧
  (attached s id domain →
     AddOrganizationDomain s id domain = (Err ErrDomainAlreadyExists, s) ∧
     ∃ ds, ListOrganizationDomains s id = Ok ds ∧ count_domain domain ds = 1%nat) ∧
  (∀ s1, AddOrganizationDomain s id domain = (Ok (), s1) →
     AddOrganizationDomain s1 id domain = (Err ErrDomainAlreadyExists, s1) ∧
     ∃ ds, ListOrganizationDomains s1 id = Ok ds ∧ count_domain domain ds = 1%nat).
Proof.
  split; [reflexivity|]. split.
  - intros Ha. split; [by apply attached_rejected | by apply attached_listed_once].
  - intros s1 Hadd. apply added_attached in Hadd.
    split; [by apply attached_rejected | by apply attached_listed_once].
Qed.

Lemma add_domain_twice_witness :
  attached sample_server "org1" "www.domain.com" ∧
  AddOrganizationDomain sample_server "org1" "www.domain.com"
    = (Err ErrDomainAlreadyExists, sample_server) ∧
  ∃ ds, ListOrganizationDomains sample_server "org1" = Ok ds ∧
        count_domain "www.domain.com" ds = 1%nat.
Proof.
  assert (Ha : attached sample_server "org1" "www.domain.com").
  { exists sample_org. split; [vm_compute; reflexivity|].
    eexists. vm_compute. reflexivity. }
  destruct (add_domain_twice sample_server "org1" "www.domain.com") as (_ & Hre & _).
  split; [exact Ha | exact (Hre Ha)].
Defined.



(** ** Metadata *)

Lemma lookup_foldr_delete_keys {A} (m : gmap string A) (keys : list string) (k : string) :
  foldr delete m keys !! k = if bool_decide (k ∈ keys) then None else m !! k.
Proof.
  induction keys as [|k0 keys IH]; cbn [foldr].
  - case_bool_decide as Hin; [by apply elem_of_nil in Hin | done].
  - destruct (decide (k = k0)) as [->|Hne].
    + rewrite lookup_delete_eq. rewrite bool_decide_eq_true_2; [done|].
      by left.
    + rewrite lookup_delete_ne by done. rewrite IH.
      rewrite (bool_decide_ext (k ∈ k0 :: keys) (k ∈ keys)); [done|].
      rewrite elem_of_cons. split; [intros [?|?]; [congruence|done] | by right].
Qed.

Lemma metadata_of_put_org (s : Server) (id : string) (o : Org) :
  metadata_of (put_org s id o) id = org_metadata o.
Proof. unfold metadata_of, put_org. simpl. by rewrite lookup_insert_eq. Qed.

Lemma metadata_of_put_org_ne (s : Server) (id id' : string) (o : Org) :
  id' ≠ id → metadata_of (put_org s id o) id' = metadata_of s id'.
Proof. intros Hne. unfold metadata_of, put_org. simpl. by rewrite lookup_insert_ne. Qed.

Lemma forallb_is_Some {A} (m : gmap string A) (keys : list string) :
  forallb (λ k, bool_decide (is_Some (m !! k))) keys = true
  ↔ Forall (λ k, is_Some (m !! k)) keys.
Proof.
  rewrite forallb_forall, Forall_forall. split; intros Hall k Hk.
  - apply list_elem_of_In in Hk. apply Hall in Hk. by apply bool_decide_eq_true in Hk.
  - apply bool_decide_eq_true. apply Hall. by apply list_elem_of_In.
Qed.

(** C2: when every key of a batch exists on the organization, deleting the
    batch leaves the organization with its metadata less the requested keys,
    every other key keeping its value and every other organization its
    metadata, and a batch that names a key succeeds; when a key of the batch
    does not exist, which is so for every key once the organization does not
    exist, the call gives one error and the state it started from. *)
Theorem delete_metadata_batch (s : Server) (id : string) (keys : list string) :
  (Forall (λ k, is_Some (metadata_of s id !! k)) keys →
     let s' := (DeleteOrganizationMetadata s id keys).2 in
     (∀ k, metadata_of s' id !! k
           = if bool_decide (k ∈ keys) then None else metadata_of s id !! k) ∧
     (∀ id', id' ≠ id → metadata_of s' id' = metadata_of s id') ∧
     (keys ≠ [] → (DeleteOrganizationMetadata s id keys).1 = Ok ())) ∧
  (Exists (λ k, metadata_of s id !! k = None) keys →
     ∃ e, DeleteOrganizationMetadata s id keys = (Err e, s)).
Proof.
  destruct keys as [|k0 keys].
  { split.
    - intros _. cbn. split; [|split]; [|done..].
      intros k. case_bool_decide as Hin; [by apply elem_of_nil in Hin | done].
    - intros Hex. by apply Exists_nil in Hex. }
  destruct (orgs s !! id) as [o|] eqn:Ho.
  - assert (Hmd : metadata_of s id = org_metadata o)
      by (unfold metadata_of; by rewrite Ho).
    rewrite Hmd. unfold DeleteOrganizationMetadata. rewrite Ho.
    destruct (forallb _ (k0 :: keys)) eqn:Hall.
    + split.
      * intros _. cbn [snd fst]. split; [|split]; [| |done].
        -- intros k. rewrite metadata_of_put_org.
           unfold with_metadata; cbn [org_metadata].
           by rewrite (lookup_foldr_delete_keys _ (k0 :: keys)).
        -- intros id' Hne. by apply metadata_of_put_org_ne.
      * intros Hex. apply forallb_is_Some in Hall.
        apply Exists_exists in Hex as (k & Hk & Hnone).
        rewrite Forall_forall in Hall. destruct (Hall k Hk) as [v Hv]. congruence.
    + split.
      * intros Hfa. apply forallb_is_Some in Hfa. congruence.
      * intros _. by eexists.
  - assert (Hmd : metadata_of s id = ∅)
      by (unfold metadata_of; by rewrite Ho).
    rewrite Hmd. unfold DeleteOrganizationMetadata. rewrite Ho. split.
    + intros Hfa. apply Forall_cons in Hfa as [[v Hv] _].
      by rewrite lookup_empty in Hv.
    + intros _. by eexists.
Qed.

Lemma delete_metadata_batch_witness :
  Forall (λ k, is_Some (metadata_of sample_server "org1" !! k)) ["key4"; "key6"]%string ∧
  Exists (λ k, metadata_of sample_server "org1" !! k = None) ["key4"; "key7"]%string ∧
  (let s' := (DeleteOrganizationMetadata sample_server "org1" ["key4"; "key6"]%string).2 in
   metadata_of s' "org1" !! "key4"%string = None ∧
   metadata_of s' "org1" !! "key5"%string = Some [Byte.x35] ∧
   metadata_of s' "org1" !! "key6"%string = None) ∧
  ∃ e, DeleteOrganizationMetadata sample_server "org1" ["key4"; "key7"]%string
       = (Err e, sample_server).
Proof.
  assert (Hall : Forall (λ k, is_Some (metadata_of sample_server "org1" !! k))
                        ["key4"; "key6"]%string).
  { repeat constructor; eexists; vm_compute; reflexivity. }
  assert (Hex : Exists (λ k, metadata_of sample_server "org1" !! k = None)
                       ["key4"; "key7"]%string).
  { apply Exists_cons_tl, Exists_cons_hd. vm_compute. reflexivity. }
  destruct (delete_metadata_batch sample_server "org1" ["key4"; "key6"]%string)
    as [Hdel _].
  destruct (delete_metadata_batch sample_server "org1" ["key4"; "key7"]%string)
    as [_ Hrej].
  destruct (Hdel Hall) as (Hkeys & _ & _).
  split; [exact Hall|]. split; [exact Hex|]. split; [|exact (Hrej Hex)].
  split; [exact (Hkeys "key4"%string)|].
  split; [exact (Hkeys "key5"%string) | exact (Hkeys "key6"%string)].
Defined.

(** ** Deletion *)

Lemma wf_empty_server : wf empty_server.
Proof. unfold wf, empty_server. simpl. set_solver. Qed.

(** Unfold the call at hand and split on every lookup and test it makes. *)
Ltac service_cases :=
  unfold CreateOrganization, UpdateOrganization, DeleteOrganization,
    DeactivateOrganization, ReactivateOrganization, AddOrganizationDomain,
    DeleteOrganizationDomain, GenerateOrganizationDomainValidation,
    SetOrganizationMetadata, DeleteOrganizationMetadata;
  repeat case_match; unfold put_org; simpl.

(** A call never takes an id back, and an organization it adds carries an
    id issued by that very call. *)
Lemma step_frame (s : Server) (c : Call) :
  issued s ⊆ issued (step s c) ∧
  dom (orgs (step s c)) ⊆ dom (orgs s) ∪ (issued (step s c) ∖ issued s).
Proof.
  pose proof (is_fresh (issued s)) as Hfresh.
  destruct c; simpl; service_cases;
    rewrite ?dom_insert_L, ?dom_delete_L;
    repeat match goal with
           | Hj : orgs s !! _ = Some _ |- _ => apply (elem_of_dom_2 (orgs s)) in Hj
           end;
    set_solver.
Qed.

Lemma wf_step (s : Server) (c : Call) : wf s → wf (step s c).
Proof. unfold wf. destruct (step_frame s c). set_solver. Qed.

Lemma gone_step (id : string) (s : Server) (c : Call) :
  gone id s → gone id (step s c).
Proof.
  intros (Hwf & Hissued & Hnone%not_elem_of_dom).
  destruct (step_frame s c) as [Hmono Hnew].
  split; [by apply wf_step|]. split; [set_solver|].
  apply not_elem_of_dom. set_solver.
Qed.

Lemma gone_run (id : string) (calls : list Call) (s : Server) :
  gone id s → gone id (run s calls).
Proof.
  revert s. induction calls as [|c calls IH]; intros s Hgone; simpl; [exact Hgone|].
  apply IH. by apply gone_step.
Qed.

Lemma wf_run (calls : list Call) (s : Server) : wf s → wf (run s calls).
Proof.
  revert s. induction calls as [|c calls IH]; intros s Hwf; simpl; [exact Hwf|].
  apply IH. by apply wf_step.
Qed.

Lemma filter_none {A} (f : A → bool) (l : list A) :
  (∀ x, x ∈ l → f x = false) → List.filter f l = [].
Proof.
  induction l as [|x l IH]; intros Hall; simpl; [reflexivity|].
  rewrite (Hall x) by (by left). apply IH. intros y Hy. apply Hall. by right.
Qed.

Lemma ListOrganizations_unknown_id (s : Server) (id : string) (queries : list OrgQuery) :
  orgs s !! id = None → IdQuery id ∈ queries →
  ListOrganizations s queries = Ok [].
Proof.
  intros Hnone Hq. unfold ListOrganizations. rewrite filter_none; [reflexivity|].
  intros [k o] Hko. apply elem_of_map_to_list in Hko. simpl.
  apply not_true_is_false. intros Hall.
  rewrite forallb_forall in Hall.
  specialize (Hall (IdQuery id)). simpl in Hall.
  apply list_elem_of_In in Hq. apply Hall in Hq.
  apply bool_decide_eq_true in Hq. subst k. congruence.
Qed.

Lemma wf_reachable (calls : list Call) : wf (run empty_server calls).
Proof. apply wf_run, wf_empty_server. Qed.

(** C7: once an organization has been deleted, a list request that filters
    by its id succeeds with the empty result: directly after the deletion,
    and, the ids of the organizations being ids the service issued, also
    after any further calls of the service. *)
Theorem delete_organization_terminal (s s' : Server) (id : string) :
  DeleteOrganization s id = (Ok (), s') →
  (∀ queries : list OrgQuery,
     IdQuery id ∈ queries → ListOrganizations s' queries = Ok []) ∧
  (wf s →
   ∀ (calls : list Call) (queries : list OrgQuery),
     IdQuery id ∈ queries →
     ListOrganizations (run s' calls) queries = Ok []).
Proof.
  intros Hdel. unfold DeleteOrganization in Hdel.
  destruct (orgs s !! id) as [o|] eqn:Ho; [|discriminate].
  injection Hdel as <-. split.
  - intros queries Hq. apply (ListOrganizations_unknown_id _ id); [|exact Hq].
    simpl. apply lookup_delete_eq.
  - intros Hwf calls queries Hq.
    assert (Hgone : gone id (mkServer (delete id (orgs s)) (issued s))).
    { unfold gone, wf in *. simpl.
      split; [rewrite dom_delete_L; set_solver|].
      split; [|apply lookup_delete_eq].
      apply Hwf. apply elem_of_dom. by rewrite Ho. }
    destruct (gone_run id calls _ Hgone) as (_ & _ & Hnone).
    by apply (ListOrganizations_unknown_id _ id).
Qed.

Lemma delete_organization_terminal_witness :
  DeleteOrganization sample_server "org1" = (Ok (), mkServer ∅ {[ "org1"%string ]}) ∧
  wf sample_server ∧
  ListOrganizations (mkServer ∅ {[ "org1"%string ]}) [IdQuery "org1"] = Ok [] ∧
  ListOrganizations
    (run (mkServer ∅ {[ "org1"%string ]})
       [CallCreateOrganization "Acme"; CallDeactivateOrganization "org1";
        CallAddOrganizationDomain "org1" "www.domain.com"])
    [IdQuery "org1"]
  = Ok [].
Proof.
  assert (Hdel : DeleteOrganization sample_server "org1"
                 = (Ok (), mkServer ∅ {[ "org1"%string ]}))
    by (vm_compute; reflexivity).
  assert (Hwf : wf sample_server)
    by (apply (bool_decide_unpack _); vm_compute; exact I).
  assert (Hq : IdQuery "org1" ∈ [IdQuery "org1"])
    by (apply (bool_decide_unpack _); vm_compute; exact I).
  destruct (delete_organization_terminal sample_server _ "org1" Hdel)
    as [Hnow Hlater].
  split; [exact Hdel|]. split; [exact Hwf|].
  split; [exact (Hnow _ Hq) | exact (Hlater Hwf _ _ Hq)].
Defined.

(** * Further properties of the converter *)

(** ** Details and list details *)

Lemma int64_range (z : Z) : - 2 ^ 63 ≤ int64 z < 2 ^ 63.
Proof. unfold int64. pose proof (Z.mod_pos_bound (z + 2 ^ 63) (2 ^ 64)). lia. Qed.

Lemma int64_shift_inj (a b c : Z) :
  - 2 ^ 63 ≤ a < 2 ^ 63 → - 2 ^ 63 ≤ b < 2 ^ 63 →
  int64 (a - c) = int64 (b - c) → a = b.
Proof.
  unfold int64. intros Ha Hb Heq.
  assert (Hmod : (a - c + 2 ^ 63) `mod` 2 ^ 64 = (b - c + 2 ^ 63) `mod` 2 ^ 64) by lia.
  clear Heq. revert Hmod.
  change (2 ^ 63) with 9223372036854775808 in *.
  change (2 ^ 64) with 18446744073709551616 in *.
  Z.div_mod_to_equations. lia.
Qed.

Lemma New_zero_inv (t : time.Time) :
  timestamppb.New t = timestamppb.New time.zero → time.IsZero t = true.
Proof.
  destruct t as [s n]. unfold timestamppb.New, time.Unix, time.Nanosecond.
  simpl. intros [= Hs Hn]. apply IsZero_zero. simpl. split; [|exact Hn].
  apply int64_shift_inj in Hs; [|apply int64_range..]. rewrite Hs. reflexivity.
Qed.

Lemma omitted_iff_zero_never_zero (t : time.Time) (field : option timestamppb.Timestamp) :
  omitted_iff_zero t field → field ≠ Some (timestamppb.New time.zero).
Proof.
  intros [Hz Hnz] Heq. destruct (time.IsZero t) eqn:Ht.
  - rewrite Hz in Heq by done. discriminate.
  - rewrite Hnz in Heq by done.
    assert (time.IsZero t = true) by (apply New_zero_inv; congruence).
    congruence.
Qed.

(** X1: [ToListDetails] panics exactly when the response has no state to
    read the sequence and the time from; otherwise it always sets the
    timestamp, also for the zero time, where the converters of details leave
    the field unset and the timestamp is that of January 1 of year 1,
    62135596800 seconds before the Unix epoch. *)
Theorem ToListDetails_timestamp_always_set (response : query.SearchResponse) :
  (ToListDetails response = None ↔ query.State_ response = None) ∧
  ∀ state, query.State_ response = Some state →
    ∃ details timestamp,
      ToListDetails response = Some details ∧
      Timestamp details = Some timestamp ∧
      (time.IsZero (query.EventCreatedAt state) = true →
       timestamp = timestamppb.mkTimestamp (-62135596800) 0 ∧
       ∀ sequence resourceOwner,
         object.ChangeDate
           (ToViewDetailsPb sequence (query.EventCreatedAt state)
              (query.EventCreatedAt state) resourceOwner) = None).
Proof.
  unfold ToListDetails. split.
  - by destruct (query.State_ response).
  - intros state ->. do 2 eexists. split; [reflexivity|]. split; [reflexivity|].
    intros Hz. split.
    + apply IsZero_zero in Hz as [Hs Hn].
      unfold timestamppb.New, time.Unix, time.Nanosecond. by rewrite Hs, Hn.
    + intros sequence resourceOwner. unfold ToViewDetailsPb. by rewrite Hz.
Qed.

Lemma ToListDetails_timestamp_always_set_witness :
  query.State_ (query.mkSearchResponse 3 (Some (query.mkState 9 time.zero)))
    = Some (query.mkState 9 time.zero) ∧
  time.IsZero (query.EventCreatedAt (query.mkState 9 time.zero)) = true ∧
  ToListDetails (query.mkSearchResponse 3 (Some (query.mkState 9 time.zero)))
    = Some (mkListDetails 3 9 (Some (timestamppb.mkTimestamp (-62135596800) 0))) ∧
  ToListDetails (query.mkSearchResponse 3 None) = None.
Proof.
  assert (Hs : query.State_ (query.mkSearchResponse 3 (Some (query.mkState 9 time.zero)))
               = Some (query.mkState 9 time.zero)) by reflexivity.
  assert (Hz : time.IsZero (query.EventCreatedAt (query.mkState 9 time.zero)) = true)
    by reflexivity.
  split; [exact Hs|]. split; [exact Hz|].
  destruct (ToListDetails_timestamp_always_set
              (query.mkSearchResponse 3 (Some (query.mkState 9 time.zero))))
    as [_ Hset].
  destruct (Hset _ Hs) as (details & timestamp & Hd & Ht & Hzero).
  destruct (Hzero Hz) as [-> _].
  split.
  - rewrite Hd. f_equal. vm_compute in Hd. injection Hd as <-. reflexivity.
  - exact (proj2 (proj1 (ToListDetails_timestamp_always_set
                           (query.mkSearchResponse 3 None))) eq_refl).
Defined.

(** X2: [DomainToDetailsPb] is [ToViewDetailsPb] on the fields of the object
    details, the event date taken as change date; it panics on the nil
    pointer only. *)
Theorem DomainToDetailsPb_ToViewDetailsPb :
  DomainToDetailsPb None = None ∧
  ∀ objectDetail : domain.ObjectDetails,
    DomainToDetailsPb (Some objectDetail)
    = Some (ToViewDetailsPb (domain.Sequence objectDetail)
              (domain.CreationDate objectDetail) (domain.EventDate objectDetail)
              (domain.ResourceOwner objectDetail)).
Proof.
  split; [reflexivity|]. intros od.
  unfold DomainToDetailsPb, ToViewDetailsPb. simpl.
  by destruct (time.IsZero (domain.EventDate od)),
              (time.IsZero (domain.CreationDate od)).
Qed.

(** X3: [DomainToChangeDetailsPb] gives what [DomainToDetailsPb] gives for
    the same object details with the creation date cleared; the two agree on
    object details exactly when their creation date is the zero time. *)
Theorem DomainToChangeDetailsPb_DomainToDetailsPb (objectDetail : domain.ObjectDetails) :
  DomainToChangeDetailsPb (Some objectDetail)
  = DomainToDetailsPb
      (Some (domain.mkObjectDetails (domain.Sequence objectDetail)
               (domain.EventDate objectDetail) time.zero
               (domain.ResourceOwner objectDetail))) ∧
  (DomainToChangeDetailsPb (Some objectDetail) = DomainToDetailsPb (Some objectDetail)
   ↔ time.IsZero (domain.CreationDate objectDetail) = true).
Proof.
  unfold DomainToChangeDetailsPb, DomainToDetailsPb. simpl. split; [reflexivity|].
  destruct (time.IsZero (domain.EventDate objectDetail)),
           (time.IsZero (domain.CreationDate objectDetail));
    simpl; split; (reflexivity || discriminate).
Qed.

(** X4: no converter of details ever writes the zero time: a timestamp field
    of the result is never the conversion of [time.Time{}]. *)
Theorem details_never_zero_time :
  (∀ objectDetail details,
     DomainToDetailsPb (Some objectDetail) = Some details →
     object.ChangeDate details ≠ Some (timestamppb.New time.zero) ∧
     object.CreationDate details ≠ Some (timestamppb.New time.zero)) ∧
  (∀ sequence creationDate changeDate resourceOwner,
     let details := ToViewDetailsPb sequence creationDate changeDate resourceOwner in
     object.ChangeDate details ≠ Some (timestamppb.New time.zero) ∧
     object.CreationDate details ≠ Some (timestamppb.New time.zero)) ∧
  (∀ objectDetail details,
     DomainToChangeDetailsPb (Some objectDetail) = Some details →
     object.ChangeDate details ≠ Some (timestamppb.New time.zero) ∧
     object.CreationDate details ≠ Some (timestamppb.New time.zero)).
Proof.
  assert (Hview : ∀ sequence creationDate changeDate resourceOwner,
            let details := ToViewDetailsPb sequence creationDate changeDate resourceOwner in
            object.ChangeDate details ≠ Some (timestamppb.New time.zero) ∧
            object.CreationDate details ≠ Some (timestamppb.New time.zero)).
  { intros sequence creationDate changeDate resourceOwner details. subst details.
    pose proof (omitted_iff_zero_field creationDate) as Hc.
    pose proof (omitted_iff_zero_field changeDate) as He.
    apply omitted_iff_zero_never_zero in Hc, He.
    unfold ToViewDetailsPb.
    destruct (time.IsZero creationDate), (time.IsZero changeDate); simpl in *; by split. }
  split; [|split; [exact Hview|]].
  - intros od details Hd.
    assert (Heq : DomainToDetailsPb (Some od)
                  = Some (ToViewDetailsPb (domain.Sequence od) (domain.CreationDate od)
                            (domain.EventDate od) (domain.ResourceOwner od))).
    { unfold DomainToDetailsPb, ToViewDetailsPb. simpl.
      by destruct (time.IsZero (domain.EventDate od)),
                  (time.IsZero (domain.CreationDate od)). }
    rewrite Heq in Hd. injection Hd as <-. apply Hview.
  - intros od details Hd. unfold DomainToChangeDetailsPb in Hd. simpl in Hd.
    injection Hd as <-.
    pose proof (omitted_iff_zero_field (domain.EventDate od)) as He.
    apply omitted_iff_zero_never_zero in He.
    destruct (time.IsZero (domain.EventDate od)); simpl in *; by split.
Qed.

Lemma details_never_zero_time_witness :
  DomainToDetailsPb (Some (domain.mkObjectDetails 7 time.zero (time.mkTime 5 0) "org"))
    = Some (object.mkDetails 7 None "org" (Some (timestamppb.New (time.mkTime 5 0)))) ∧
  object.CreationDate
    (object.mkDetails 7 None "org" (Some (timestamppb.New (time.mkTime 5 0))))
    ≠ Some (timestamppb.New time.zero).
Proof.
  assert (Hd : DomainToDetailsPb
                 (Some (domain.mkObjectDetails 7 time.zero (time.mkTime 5 0) "org"))
               = Some (object.mkDetails 7 None "org"
                         (Some (timestamppb.New (time.mkTime 5 0)))))
    by reflexivity.
  destruct details_never_zero_time as (Hdetails & _ & _).
  split; [exact Hd | exact (proj2 (Hdetails _ _ Hd))].
Defined.

(** ** Text methods *)

Section text_method_more.
Context `{object_pb, query_pkg}.

Lemma TextMethodToQuery_range (method : Z) :
  TextMethodToQuery method ∈ -1 :: text_comparisons.
Proof.
  unfold TextMethodToQuery, text_comparisons.
  repeat match goal with
         | |- context [method =? ?c] => destruct (method =? c)
         end;
    repeat (first [by left | right]).
Qed.

Lemma TextMethodToQuery_recognized (method : Z) :
  method ∈ text_query_methods → TextMethodToQuery method ∈ text_comparisons.
Proof.
  unfold TextMethodToQuery, text_query_methods, text_comparisons. intros Hin.
  repeat match goal with
         | |- context [method =? ?c] =>
             destruct (Z.eqb_spec method c); [repeat (first [by left | right])|]
         end.
  repeat (apply elem_of_cons in Hin as [?|Hin]; [congruence|]).
  by apply elem_of_nil in Hin.
Qed.

(** X5: [TextMethodToQuery] gives one of the eight comparison kinds or the
    sentinel -1 and nothing else; no valid kind having the value -1, the
    result is the sentinel exactly for the inputs outside the eight
    recognized methods, so a caller that tests for -1 finds exactly those. *)
Theorem TextMethodToQuery_sentinel_iff :
  (∀ method, TextMethodToQuery method ∈ -1 :: text_comparisons) ∧
  (Forall (λ k, k ≠ -1) text_comparisons →
   ∀ method, TextMethodToQuery method = -1 ↔ method ∉ text_query_methods).
Proof.
  split; [exact TextMethodToQuery_range|].
  intros Hvalid method. split.
  - intros Hs Hin. apply TextMethodToQuery_recognized in Hin.
    rewrite Forall_forall in Hvalid. by apply (Hvalid _ Hin).
  - apply TextMethodToQuery_default.
Qed.

Lemma TextMethodToQuery_pairs :
  NoDup text_query_methods →
  Forall2 (λ method k, TextMethodToQuery method = k) text_query_methods text_comparisons.
Proof.
  unfold text_query_methods, text_comparisons. intros Hdistinct.
  repeat (apply NoDup_cons in Hdistinct as [? Hdistinct]).
  repeat match goal with
         | Hn : _ ∉ _ :: _ |- _ => apply not_elem_of_cons in Hn as [? Hn]
         end.
  unfold TextMethodToQuery.
  repeat (apply Forall2_cons; split; [case_switch|]). apply Forall2_nil_2.
Qed.

(** X6: the case constants and the comparison kinds being distinct among
    themselves, [TextMethodToQuery] is injective on the eight recognized
    methods: two of them never share a comparison kind. *)
Theorem TextMethodToQuery_injective :
  NoDup text_query_methods →
  NoDup text_comparisons →
  ∀ m1 m2, m1 ∈ text_query_methods → m2 ∈ text_query_methods →
    TextMethodToQuery m1 = TextMethodToQuery m2 → m1 = m2.
Proof.
  intros Hm Hk m1 m2 H1 H2 Heq.
  pose proof (TextMethodToQuery_pairs Hm) as Hpairs.
  apply list_elem_of_lookup in H1 as [i Hi], H2 as [j Hj].
  destruct (Forall2_lookup_l _ _ _ _ _ Hpairs Hi) as (k1 & Hk1 & Hv1).
  destruct (Forall2_lookup_l _ _ _ _ _ Hpairs Hj) as (k2 & Hk2 & Hv2).
  assert (i = j) by (apply (NoDup_lookup _ _ _ k1 Hk); congruence).
  congruence.
Qed.
End text_method_more.

Lemma TextMethodToQuery_sentinel_iff_witness :
  Forall (λ k, k ≠ -1) (@text_comparisons iota_query_pkg) ∧
  (@TextMethodToQuery iota_object_pb iota_query_pkg (-1) = -1
   ↔ -1 ∉ @text_query_methods iota_object_pb).
Proof.
  assert (Hvalid : Forall (λ k, k ≠ -1) (@text_comparisons iota_query_pkg))
    by (apply (bool_decide_unpack _); vm_compute; exact I).
  destruct (@TextMethodToQuery_sentinel_iff iota_object_pb iota_query_pkg) as [_ Hiff].
  split; [exact Hvalid | exact (Hiff Hvalid (-1))].
Defined.

Lemma TextMethodToQuery_injective_witness :
  NoDup (@text_query_methods iota_object_pb) ∧
  NoDup (@text_comparisons iota_query_pkg) ∧
  @TextMethodToQuery iota_object_pb iota_query_pkg 2
  ≠ @TextMethodToQuery iota_object_pb iota_query_pkg 6.
Proof.
  assert (Hm : NoDup (@text_query_methods iota_object_pb))
    by (apply (bool_decide_unpack _); vm_compute; exact I).
  assert (Hk : NoDup (@text_comparisons iota_query_pkg))
    by (apply (bool_decide_unpack _); vm_compute; exact I).
  assert (H2 : 2 ∈ @text_query_methods iota_object_pb)
    by (apply (bool_decide_unpack _); vm_compute; exact I).
  assert (H6 : 6 ∈ @text_query_methods iota_object_pb)
    by (apply (bool_decide_unpack _); vm_compute; exact I).
  split; [exact Hm|]. split; [exact Hk|]. intros Heq.
  pose proof (@TextMethodToQuery_injective iota_object_pb iota_query_pkg
                Hm Hk 2 6 H2 H6 Heq) as Habs.
  discriminate Habs.
Defined.

(** ** Validation types and domains *)

Section validation_type_more.
Context `{domain_pkg, org_pb}.

Lemma DomainValidationTypeFromModel_range (v : Z) :
  DomainValidationTypeFromModel v ∈ pb_validation_types.
Proof.
  unfold DomainValidationTypeFromModel, pb_validation_types.
  repeat match goal with
         | |- context [v =? ?c] => destruct (v =? c)
         end;
    repeat (first [by left | right]).
Qed.

Lemma DomainValidationTypeToDomain_range (p : Z) :
  DomainValidationTypeToDomain p ∈ domain_validation_types.
Proof.
  unfold DomainValidationTypeToDomain, domain_validation_types.
  repeat match goal with
         | |- context [p =? ?c] => destruct (p =? c)
         end;
    repeat (first [by left | right]).
Qed.

Lemma DomainValidationTypeToDomain_FromModel (v : Z) :
  NoDup domain_validation_types → NoDup pb_validation_types →
  v ∈ domain_validation_types →
  DomainValidationTypeToDomain (DomainValidationTypeFromModel v) = v.
Proof.
  unfold domain_validation_types, pb_validation_types. intros Hd Hp Hv.
  repeat (apply NoDup_cons in Hd as [? Hd]).
  repeat (apply NoDup_cons in Hp as [? Hp]).
  repeat match goal with
         | Hn : _ ∉ _ :: _ |- _ => apply not_elem_of_cons in Hn as [? Hn]
         end.
  unfold DomainValidationTypeToDomain, DomainValidationTypeFromModel.
  repeat (apply elem_of_cons in Hv as [->|Hv]);
    [ | | | by apply elem_of_nil in Hv]; case_switch.
Qed.

Lemma DomainValidationTypeFromModel_ToDomain (p : Z) :
  NoDup domain_validation_types → NoDup pb_validation_types →
  p ∈ pb_validation_types →
  DomainValidationTypeFromModel (DomainValidationTypeToDomain p) = p.
Proof.
  unfold domain_validation_types, pb_validation_types. intros Hd Hp Hv.
  repeat (apply NoDup_cons in Hd as [? Hd]).
  repeat (apply NoDup_cons in Hp as [? Hp]).
  repeat match goal with
         | Hn : _ ∉ _ :: _ |- _ => apply not_elem_of_cons in Hn as [? Hn]
         end.
  unfold DomainValidationTypeToDomain, DomainValidationTypeFromModel.
  repeat (apply elem_of_cons in Hv as [->|Hv]);
    [ | | | by apply elem_of_nil in Hv]; case_switch.
Qed.

(** X7: each converter of validation types lands in the three values of its
    target enum whatever the input, and, the constants of either enum being
    distinct, converting there, back and there again gives what converting
    once gives, for unrecognized inputs too. *)
Theorem DomainValidationType_normalizes :
  (∀ v, DomainValidationTypeFromModel v ∈ pb_validation_types) ∧
  (∀ p, DomainValidationTypeToDomain p ∈ domain_validation_types) ∧
  (NoDup domain_validation_types → NoDup pb_validation_types →
   (∀ v, DomainValidationTypeFromModel
           (DomainValidationTypeToDomain (DomainValidationTypeFromModel v))
         = DomainValidationTypeFromModel v) ∧
   (∀ p, DomainValidationTypeToDomain
           (DomainValidationTypeFromModel (DomainValidationTypeToDomain p))
         = DomainValidationTypeToDomain p)).
Proof.
  split; [exact DomainValidationTypeFromModel_range|].
  split; [exact DomainValidationTypeToDomain_range|].
  intros Hd Hp. split.
  - intros v. apply DomainValidationTypeFromModel_ToDomain; [done..|].
    apply DomainValidationTypeFromModel_range.
  - intros p. apply DomainValidationTypeToDomain_FromModel; [done..|].
    apply DomainValidationTypeToDomain_range.
Qed.

(** X8: [DomainToPb] panics on the nil pointer only; the details it attaches
    to a domain are owned by the organization of the domain, carry its
    sequence, and have the creation and the change date each in its own
    field, unset for the zero time. *)
Theorem DomainToPb_details :
  DomainToPb None = None ∧
  ∀ d : query.Domain, ∃ pb details,
    DomainToPb (Some d) = Some pb ∧
    org_pb.OrgId pb = query.OrgID d ∧
    org_pb.DomainName pb = query.Domain_ d ∧
    org_pb.Details pb = Some details ∧
    object.ResourceOwner details = org_pb.OrgId pb ∧
    object.Sequence details = query.Sequence_ d ∧
    omitted_iff_zero (query.CreationDate d) (object.CreationDate details) ∧
    omitted_iff_zero (query.ChangeDate d) (object.ChangeDate details).
Proof.
  split; [reflexivity|]. intros d. do 2 eexists.
  do 4 (split; [reflexivity|]). unfold ToViewDetailsPb.
  pose proof (omitted_iff_zero_field (query.CreationDate d)) as Hc.
  pose proof (omitted_iff_zero_field (query.ChangeDate d)) as He.
  destruct (time.IsZero (query.CreationDate d)), (time.IsZero (query.ChangeDate d));
    simpl in *; (split; [reflexivity|]); (split; [reflexivity|]); by split.
Qed.

(** X9: the validation type of a domain survives [DomainToPb]: converting
    the type of the message back with [DomainValidationTypeToDomain] gives
    the type of the domain when that is one of the three values, and the
    unspecified type otherwise. *)
Theorem DomainToPb_validation_type (d : query.Domain) (pb : org_pb.Domain) :
  NoDup domain_validation_types → NoDup pb_validation_types →
  DomainToPb (Some d) = Some pb →
  org_pb.ValidationType pb ∈ pb_validation_types ∧
  (query.ValidationType d ∈ domain_validation_types →
   DomainValidationTypeToDomain (org_pb.ValidationType pb) = query.ValidationType d) ∧
  (query.ValidationType d ∉ domain_validation_types →
   DomainValidationTypeToDomain (org_pb.ValidationType pb)
   = OrgDomainValidationTypeUnspecified).
Proof.
  intros Hd Hp Hpb. unfold DomainToPb in Hpb. simpl in Hpb. injection Hpb as <-.
  simpl. split; [apply DomainValidationTypeFromModel_range|].
  split.
  - by apply DomainValidationTypeToDomain_FromModel.
  - unfold domain_validation_types, pb_validation_types in *. intros Hv.
    repeat (apply NoDup_cons in Hp as [? Hp]).
    repeat match goal with
           | Hn : _ ∉ _ :: _ |- _ => apply not_elem_of_cons in Hn as [? Hn]
           end.
    unfold DomainValidationTypeToDomain, DomainValidationTypeFromModel. case_switch.
Qed.
End validation_type_more.

Lemma DomainValidationType_normalizes_witness :
  NoDup (@domain_validation_types iota_domain_pkg) ∧
  NoDup (@pb_validation_types iota_org_pb) ∧
  @DomainValidationTypeFromModel iota_domain_pkg iota_org_pb
    (@DomainValidationTypeToDomain iota_domain_pkg iota_org_pb
       (@DomainValidationTypeFromModel iota_domain_pkg iota_org_pb 9))
  = @DomainValidationTypeFromModel iota_domain_pkg iota_org_pb 9.
Proof.
  assert (Hd : NoDup (@domain_validation_types iota_domain_pkg))
    by (apply (bool_decide_unpack _); vm_compute; exact I).
  assert (Hp : NoDup (@pb_validation_types iota_org_pb))
    by (apply (bool_decide_unpack _); vm_compute; exact I).
  destruct (@DomainValidationType_normalizes iota_domain_pkg iota_org_pb)
    as (_ & _ & Hnorm).
  split; [exact Hd|]. split; [exact Hp|]. exact (proj1 (Hnorm Hd Hp) 9).
Defined.

Lemma DomainToPb_validation_type_witness :
  NoDup (@domain_validation_types iota_domain_pkg) ∧
  NoDup (@pb_validation_types iota_org_pb) ∧
  ∃ pb,
    @DomainToPb iota_domain_pkg iota_org_pb
      (Some (query.mkDomain (time.mkTime 5 0) time.zero 3 "www.domain.com" "org1"
               true false 2)) = Some pb ∧
    @DomainValidationTypeToDomain iota_domain_pkg iota_org_pb (org_pb.ValidationType pb) = 2.
Proof.
  assert (Hd : NoDup (@domain_validation_types iota_domain_pkg))
    by (apply (bool_decide_unpack _); vm_compute; exact I).
  assert (Hp : NoDup (@pb_validation_types iota_org_pb))
    by (apply (bool_decide_unpack _); vm_compute; exact I).
  split; [exact Hd|]. split; [exact Hp|]. eexists.
  assert (Hpb : @DomainToPb iota_domain_pkg iota_org_pb
                  (Some (query.mkDomain (time.mkTime 5 0) time.zero 3 "www.domain.com"
                           "org1" true false 2))
                = Some (org_pb.mkDomain "org1" "www.domain.com" true false 2
                          (Some (object.mkDetails 3 None "org1"
                                   (Some (timestamppb.New (time.mkTime 5 0)))))))
    by reflexivity.
  split; [exact Hpb|].
  destruct (@DomainToPb_validation_type iota_domain_pkg iota_org_pb _ _ Hd Hp Hpb)
    as (_ & Hback & _).
  apply Hback. apply (bool_decide_unpack _). vm_compute. exact I.
Defined.

(** ** Lists of domains *)

Section domains.
Context `{domain_pkg, org_pb}.

Lemma DomainsToPb_panicked (l : list (nat * option query.Domain)) :
  foldl DomainsToPb_turn None l = None.
Proof. induction l as [|p l IH]; simpl; [reflexivity | exact IH]. Qed.

Lemma DomainsToPb_loop (filled : list org_pb.Domain) (rest : list (option query.Domain)) :
  foldl DomainsToPb_turn
    (Some ((Some <$> filled) ++ replicate (length rest) None))
    (imap (λ i, pair (length filled + i)%nat) rest)
  = (λ out, Some <$> (filled ++ out)) <$> mapM DomainToPb rest.
Proof.
  revert filled. induction rest as [|x rest IH]; intros filled.
  - simpl. by rewrite !app_nil_r.
  - rewrite imap_cons. cbn [foldl length replicate].
    unfold DomainsToPb_turn at 2. cbn [mbind option_bind fst snd].
    destruct (DomainToPb x) as [pb|] eqn:Hx.
    + cbn [mbind option_bind].
      replace (length filled + 0)%nat with (length (Some <$> filled) + 0)%nat
        by (rewrite length_fmap; lia).
      rewrite insert_app_r. cbn [list_insert insert].
      replace ((Some <$> filled) ++ Some pb :: replicate (length rest) None)
        with ((Some <$> (filled ++ [pb])) ++ replicate (length rest) None)
        by (rewrite fmap_app, <- app_assoc; reflexivity).
      rewrite (imap_ext _ (λ i, pair (length (filled ++ [pb]) + i)%nat)).
      2: { intros i y _. simpl. f_equal. rewrite length_app. simpl. lia. }
      rewrite IH. simpl. rewrite Hx. simpl.
      destruct (mapM DomainToPb rest) as [out|]; simpl; [|reflexivity].
      by rewrite <- app_assoc.
    + cbn [mbind option_bind]. rewrite DomainsToPb_panicked.
      simpl. by rewrite Hx.
Qed.

Lemma DomainsToPb_mapM (domains : list (option query.Domain)) :
  DomainsToPb domains = fmap Some <$> mapM DomainToPb domains.
Proof.
  unfold DomainsToPb.
  pose proof (DomainsToPb_loop [] domains) as Hloop. simpl in Hloop.
  exact Hloop.
Qed.

(** X10: the slot-by-slot loop of [DomainsToPb] gives the domains converted
    one by one with [DomainToPb], in the order they came in. *)
Theorem DomainsToPb_pointwise (domains : list (option query.Domain)) :
  DomainsToPb domains = fmap Some <$> mapM DomainToPb domains.
Proof. exact (DomainsToPb_mapM domains). Qed.

(** X11: [DomainsToPb] panics exactly when a nil pointer is among the
    domains; otherwise the result has the length of its input, no slot of it
    stays nil, and its slot [i] holds the conversion of the domain [i]. *)
Theorem DomainsToPb_slots (domains : list (option query.Domain)) :
  (DomainsToPb domains = None ↔ None ∈ domains) ∧
  ∀ out, DomainsToPb domains = Some out →
    length out = length domains ∧
    Forall is_Some out ∧
    ∀ i d, domains !! i = Some d → out !! i = Some (DomainToPb d).
Proof.
  rewrite DomainsToPb_mapM. split.
  - split.
    + intros Hnone%fmap_None%mapM_None_1.
      apply Exists_exists in Hnone as (d & Hd & Hnone).
      destruct d; [discriminate|exact Hd].
    + intros Hin. apply fmap_None, mapM_None_2, Exists_exists.
      exists None. by split.
  - intros out [pbs [Hm ->]]%fmap_Some.
    apply mapM_Some in Hm. split; [|split].
    + rewrite length_fmap. symmetry. by eapply Forall2_length.
    + apply Forall_fmap, Forall_true. by eexists.
    + intros i d Hd. rewrite list_lookup_fmap.
      destruct (Forall2_lookup_l _ _ _ _ _ Hm Hd) as (pb & -> & ->). reflexivity.
Qed.
End domains.

Lemma DomainsToPb_slots_witness :
  @DomainsToPb iota_domain_pkg iota_org_pb
    [Some (query.mkDomain time.zero time.zero 1 "a.example" "org1" false true 1);
     Some (query.mkDomain time.zero time.zero 2 "b.example" "org1" true false 2)]
  = Some [Some (org_pb.mkDomain "org1" "a.example" false true 1
                  (Some (object.mkDetails 1 None "org1" None)));
          Some (org_pb.mkDomain "org1" "b.example" true false 2
                  (Some (object.mkDetails 2 None "org1" None)))] ∧
  length [Some (org_pb.mkDomain "org1" "a.example" false true 1
                  (Some (object.mkDetails 1 None "org1" None)));
          Some (org_pb.mkDomain "org1" "b.example" true false 2
                  (Some (object.mkDetails 2 None "org1" None)))] = 2%nat.
Proof.
  match goal with |- ?eq ∧ _ => assert (Hout : eq) by reflexivity end.
  split; [exact Hout|].
  exact (proj1 (proj2 (@DomainsToPb_slots iota_domain_pkg iota_org_pb _) _ Hout)).
Defined.

(** ** Resource owner *)

(** X12: [ResourceOwnerFromReq] answers with the instance id when the
    request asks for the instance, else with the organization id of the
    request when that is not empty, else with the organization of the call
    context; so with a call context that has an instance id and an
    organization the resource owner is never empty, and an empty
    organization id of the request is never the answer in its own right. *)
Theorem ResourceOwnerFromReq_never_empty (ctx : Context) (req : RequestContext) :
  (ResourceOwnerFromReq ctx req = InstanceID ctx ∧ GetInstance req = true ∨
   ResourceOwnerFromReq ctx req = GetOrgId req ∧ GetInstance req = false ∧
     GetOrgId req ≠ ""%string ∨
   ResourceOwnerFromReq ctx req = CtxData_OrgID ctx ∧ GetInstance req = false ∧
     GetOrgId req = ""%string) ∧
  (InstanceID ctx ≠ ""%string → CtxData_OrgID ctx ≠ ""%string →
   ResourceOwnerFromReq ctx req ≠ ""%string).
Proof.
  unfold ResourceOwnerFromReq.
  destruct (GetInstance req); [by split; [left|]|].
  destruct (String.eqb_spec (GetOrgId req) "") as [Heq|Hne]; simpl.
  - split; [by right; right|]. by intros _ Hctx.
  - split; [by right; left|]. by intros _ _.
Qed.

Lemma ResourceOwnerFromReq_never_empty_witness :
  InstanceID (mkContext "instance1" "org1") ≠ ""%string ∧
  CtxData_OrgID (mkContext "instance1" "org1") ≠ ""%string ∧
  ResourceOwnerFromReq (mkContext "instance1" "org1") (mkRequestContext false "")
  ≠ ""%string.
Proof.
  assert (Hi : InstanceID (mkContext "instance1" "org1") ≠ ""%string) by discriminate.
  assert (Ho : CtxData_OrgID (mkContext "instance1" "org1") ≠ ""%string) by discriminate.
  split; [exact Hi|]. split; [exact Ho|].
  exact (proj2 (ResourceOwnerFromReq_never_empty (mkContext "instance1" "org1")
                  (mkRequestContext false "")) Hi Ho).
Defined.

(** * Properties of the helpers of the integration tests *)

Section createOrgs_properties.
Context {St R : Type}.
Variable Client_CreateOrganization : St → string → Result R * St.
Variable gofakeit_Name : nat → string.

Lemma create_in_turn_length (names : list string) (s s' : St) (orgs : list R) :
  create_in_turn Client_CreateOrganization names s = (Ok orgs, s') →
  length orgs = length names.
Proof.
  revert s orgs. induction names as [|name names IH]; intros s orgs; simpl.
  - by intros [= <- <-].
  - destruct (Client_CreateOrganization s name) as [[org|err] s1]; [|discriminate].
    destruct (create_in_turn _ names s1) as [[orgs'|err] s2] eqn:Hrest; [|discriminate].
    intros [= <- <-]. simpl. f_equal. by eapply IH.
Qed.

Lemma create_in_turn_app (names1 names2 : list string) (s : St) :
  create_in_turn Client_CreateOrganization (names1 ++ names2) s
  = match create_in_turn Client_CreateOrganization names1 s with
    | (Ok orgs1, s1) =>
        match create_in_turn Client_CreateOrganization names2 s1 with
        | (Ok orgs2, s2) => (Ok (orgs1 ++ orgs2), s2)
        | (Err err, s2) => (Err err, s2)
        end
    | (Err err, s1) => (Err err, s1)
    end.
Proof.
  revert s. induction names1 as [|name names1 IH]; intros s; simpl.
  - by destruct (create_in_turn _ names2 s) as [[?|?] ?].
  - destruct (Client_CreateOrganization s name) as [[org|err] s1]; [|reflexivity].
    rewrite IH. destruct (create_in_turn _ names1 s1) as [[orgs1|err] s2]; [|reflexivity].
    by destruct (create_in_turn _ names2 s2) as [[?|?] ?].
Qed.

Lemma createOrgs_loop (n k : nat) (s : St) :
  (k ≤ n)%nat →
  foldl (createOrgs_turn Client_CreateOrganization gofakeit_Name)
    (Ok (replicate n None, replicate n ""%string), s) (seq 0 k)
  = match create_in_turn Client_CreateOrganization (gofakeit_Name <$> seq 0 k) s with
    | (Ok orgs, s') =>
        (Ok ((Some <$> orgs) ++ replicate (n - k) None,
             (gofakeit_Name <$> seq 0 k) ++ replicate (n - k) ""%string), s')
    | (Err err, s') => (Err err, s')
    end.
Proof.
  induction k as [|k IH]; intros Hk.
  - simpl. by rewrite Nat.sub_0_r.
  - rewrite seq_S, foldl_app, fmap_app, create_in_turn_app. simpl.
    rewrite IH by lia.
    destruct (create_in_turn _ (gofakeit_Name <$> seq 0 k) s) as [[orgs|err] s1] eqn:Hk1;
      [|reflexivity].
    apply create_in_turn_length in Hk1. rewrite length_fmap, length_seq in Hk1.
    unfold createOrgs_turn.
    destruct (Client_CreateOrganization s1 (gofakeit_Name k)) as [[org|err] s2];
      [|reflexivity].
    replace (n - k)%nat with (S (n - S k)) by lia. simpl.
    f_equal. f_equal. f_equal.
    + rewrite insert_app_r_alt by (rewrite length_fmap; lia).
      rewrite length_fmap, Hk1, Nat.sub_diag. simpl.
      by rewrite fmap_app, <- app_assoc.
    + rewrite insert_app_r_alt by (rewrite length_fmap, length_seq; lia).
      rewrite length_fmap, length_seq, Nat.sub_diag. simpl.
      by rewrite <- app_assoc.
Qed.

Lemma createOrgs_create_in_turn (noOfOrgs : Z) (s : St) :
  0 ≤ noOfOrgs →
  createOrgs Client_CreateOrganization gofakeit_Name noOfOrgs s
  = Some match create_in_turn Client_CreateOrganization
                 (gofakeit_Name <$> seq 0 (Z.to_nat noOfOrgs)) s with
         | (Ok orgs, s') =>
             (Ok (Some <$> orgs, gofakeit_Name <$> seq 0 (Z.to_nat noOfOrgs)), s')
         | (Err err, s') => (Err err, s')
         end.
Proof.
  intros Hn. unfold createOrgs.
  destruct (Z.ltb_spec noOfOrgs 0) as [?|_]; [lia|].
  rewrite createOrgs_loop by lia. rewrite Nat.sub_diag. simpl.
  destruct (create_in_turn _ _ s) as [[orgs|err] s']; [|reflexivity].
  by rewrite !app_nil_r.
Qed.

(** X13: [createOrgs] panics on a negative count; otherwise it is the calls
    of the client made one after the other with the names as they are drawn,
    up to the first call that fails: it answers with the responses and the
    names of all the calls, or with the error of the first failing call
    alone, after which no further call is made. *)
Theorem createOrgs_calls_in_turn (noOfOrgs : Z) (s : St) :
  (noOfOrgs < 0 →
   createOrgs Client_CreateOrganization gofakeit_Name noOfOrgs s = None) ∧
  (0 ≤ noOfOrgs →
   createOrgs Client_CreateOrganization gofakeit_Name noOfOrgs s
   = Some match create_in_turn Client_CreateOrganization
                  (gofakeit_Name <$> seq 0 (Z.to_nat noOfOrgs)) s with
          | (Ok orgs, s') =>
              (Ok (Some <$> orgs, gofakeit_Name <$> seq 0 (Z.to_nat noOfOrgs)), s')
          | (Err err, s') => (Err err, s')
          end).
Proof.
  split; [|apply createOrgs_create_in_turn].
  intros Hneg. unfold createOrgs. by destruct (Z.ltb_spec noOfOrgs 0); [|lia].
Qed.

(** X14: when [createOrgs] succeeds, both slices it returns have the length
    asked for, no response slot is nil, and the name in slot [i] is the name
    drawn in turn [i]. *)
Theorem createOrgs_lengths (noOfOrgs : Z) (s s' : St)
    (orgs : list (option R)) (orgsName : list string) :
  createOrgs Client_CreateOrganization gofakeit_Name noOfOrgs s
    = Some (Ok (orgs, orgsName), s') →
  0 ≤ noOfOrgs ∧
  Z.of_nat (length orgs) = noOfOrgs ∧
  Z.of_nat (length orgsName) = noOfOrgs ∧
  Forall is_Some orgs ∧
  ∀ i : nat, Z.of_nat i < noOfOrgs → orgsName !! i = Some (gofakeit_Name i).
Proof.
  intros Hc.
  assert (Hn : 0 ≤ noOfOrgs).
  { unfold createOrgs in Hc. destruct (Z.ltb_spec noOfOrgs 0); [discriminate | lia]. }
  rewrite createOrgs_create_in_turn in Hc by done.
  destruct (create_in_turn _ _ s) as [[rs|err] s1] eqn:Hrs; [|discriminate].
  injection Hc as <- <- <-.
  apply create_in_turn_length in Hrs. rewrite length_fmap, length_seq in Hrs.
  split; [exact Hn|]. rewrite !length_fmap, length_seq, Hrs.
  split; [lia|]. split; [lia|]. split.
  - apply Forall_fmap, Forall_true. by eexists.
  - intros i Hi. rewrite list_lookup_fmap, lookup_seq_lt by lia. reflexivity.
Qed.
End createOrgs_properties.



(** ** The count of found organizations *)

Lemma foundOrgs_inner (got : Organization) (want : list Organization) (n : nat) :
  foldl (λ foundOrgs org,
           if bool_decide (Name org = Name got) && bool_decide (Id org = Id got)
           then S foundOrgs else foundOrgs) n want
  = (n + length (List.filter (agree got) want))%nat.
Proof.
  revert n. induction want as [|org want IH]; intros n; simpl; [lia|].
  rewrite IH. unfold agree at 2.
  destruct (bool_decide (Name org = Name got) && bool_decide (Id org = Id got));
    simpl; lia.
Qed.

Lemma foundOrgs_cons (got : Organization) (result want : list Organization) :
  foundOrgs (got :: result) want
  = (length (List.filter (agree got) want) + foundOrgs result want)%nat.
Proof.
  unfold foundOrgs. simpl. rewrite foundOrgs_inner. simpl.
  generalize (length (List.filter (agree got) want)). intros n.
  revert n. induction result as [|got' result IH]; intros n; simpl; [lia|].
  rewrite !foundOrgs_inner. simpl. rewrite (IH (n + _)%nat), (IH (length _)). lia.
Qed.

(** How often a wanted organization is listed. *)
Lemma listed_cons (got : Organization) (result want : list Organization) :
  sum_list_with (λ org, length (List.filter (λ got, agree got org) (got :: result))) want
  = (length (List.filter (agree got) want)
     + sum_list_with (λ org, length (List.filter (λ got, agree got org) result)) want)%nat.
Proof.
  induction want as [|org want IH]; simpl; [reflexivity|].
  simpl in IH. rewrite IH. destruct (agree got org); simpl; lia.
Qed.

Lemma foundOrgs_by_wanted (result want : list Organization) :
  foundOrgs result want
  = sum_list_with (λ org, length (List.filter (λ got, agree got org) result)) want.
Proof.
  induction result as [|got result IH].
  - unfold foundOrgs. simpl. induction want as [|org want IHw]; simpl; [reflexivity|].
    exact IHw.
  - by rewrite foundOrgs_cons, IH, listed_cons.
Qed.

Lemma listed_none (org : Organization) (result : list Organization) :
  Id org ∉ Id <$> result → List.filter (λ got, agree got org) result = [].
Proof.
  intros Hnot. apply filter_none. intros got Hgot. unfold agree.
  apply andb_false_intro2, bool_decide_eq_false_2. intros Heq.
  apply Hnot. rewrite Heq. by apply list_elem_of_fmap_2.
Qed.

Lemma listed_at_most_once (org : Organization) (result : list Organization) :
  NoDup (Id <$> result) →
  (length (List.filter (λ got, agree got org) result) ≤ 1)%nat.
Proof.
  induction result as [|got result IH]; simpl; [lia|].
  intros [Hnot Hnd]%NoDup_cons. destruct (agree got org) eqn:Hag; [|by apply IH].
  apply andb_prop in Hag as [_ Hid%bool_decide_eq_true].
  simpl. rewrite listed_none; [simpl; lia | by rewrite Hid].
Qed.

Lemma listed_iff (org : Organization) (result : list Organization) :
  (1 ≤ length (List.filter (λ got, agree got org) result))%nat
  ↔ ∃ got, got ∈ result ∧ Name org = Name got ∧ Id org = Id got.
Proof.
  induction result as [|got result IH]; simpl.
  - split; [lia|]. intros (got & Hin & _). by apply elem_of_nil in Hin.
  - destruct (agree got org) eqn:Hag; simpl.
    + split; [|lia]. intros _. exists got. split; [by left|].
      apply andb_prop in Hag as [Hn%bool_decide_eq_true Hi%bool_decide_eq_true]. done.
    + rewrite IH. split.
      * intros (got' & Hin & Hag'). exists got'. split; [by right | done].
      * intros (got' & [->|Hin]%elem_of_cons & Hn & Hi).
        -- unfold agree in Hag. rewrite !bool_decide_eq_true_2 in Hag by done.
           discriminate.
        -- by exists got'.
Qed.

Lemma sum_indicators {A} (x : A → nat) (l : list A) :
  (∀ a, a ∈ l → (x a ≤ 1)%nat) →
  (sum_list_with x l ≤ length l)%nat ∧
  (sum_list_with x l = length l ↔ ∀ a, a ∈ l → (1 ≤ x a)%nat).
Proof.
  induction l as [|a l IH]; intros Hle; simpl.
  - split; [lia|]. split; [|done]. intros _ a Ha. by apply elem_of_nil in Ha.
  - destruct IH as [IHle IHeq]; [intros b Hb; apply Hle; by right|].
    pose proof (Hle a ltac:(by left)) as Ha.
    split; [lia|]. split.
    + intros Hsum b [->|Hb]%elem_of_cons; [lia|]. apply IHeq; [lia | exact Hb].
    + intros Hall. pose proof (Hall a ltac:(by left)).
      assert (sum_list_with x l = length l); [|lia].
      apply IHeq. intros b Hb. apply Hall. by right.
Qed.

(** X16: the count of [TestServer_ListOrganization] adds up, over the wanted
    organizations, how often each is listed with its name and id; when no id
    is listed twice, the count equals the number of wanted organizations
    exactly when every wanted organization is listed, whatever else the
    result lists. *)
Theorem foundOrgs_all_found (result want : list Organization) :
  NoDup (Id <$> result) →
  (foundOrgs result want ≤ length want)%nat ∧
  (foundOrgs result want = length want ↔
   ∀ org, org ∈ want → ∃ got, got ∈ result ∧ Name org = Name got ∧ Id org = Id got).
Proof.
  intros Hnd. rewrite foundOrgs_by_wanted.
  destruct (sum_indicators
              (λ org, length (List.filter (λ got, agree got org) result)) want)
    as [Hle Heq]; [intros org _; by apply listed_at_most_once|].
  split; [exact Hle|]. rewrite Heq. split.
  - intros Hall org Horg. apply listed_iff. by apply Hall.
  - intros Hall org Horg. apply listed_iff. by apply Hall.
Qed.

(** * Further properties of the organization service *)

(** ** Round trips *)

Lemma put_org_same (s : Server) (id : string) (o : Org) :
  orgs s !! id = Some o → put_org s id o = s.
Proof.
  intros Ho. destruct s as [m i]. unfold put_org. simpl in *.
  by rewrite insert_id.
Qed.

(** X19: in the model of the organization service, deleting a domain that
    was just added gives back the very state the add started from, where
    deleting the domain once more is rejected with the doesn't-exist
    error. *)
Theorem add_delete_domain_round_trip (s s1 : Server) (id domain : string) :
  AddOrganizationDomain s id domain = (Ok (), s1) →
  DeleteOrganizationDomain s1 id domain = (Ok (), s) ∧
  DeleteOrganizationDomain s id domain = (Err ErrDomainNotOnOrg, s).
Proof.
  unfold AddOrganizationDomain, DeleteOrganizationDomain.
  destruct (orgs s !! id) as [o|] eqn:Ho; [|discriminate].
  destruct (org_domains o !! domain) eqn:Hd; [discriminate|].
  intros [= <-]. split; [|reflexivity].
  unfold put_org. simpl. rewrite lookup_insert_eq. simpl.
  rewrite lookup_insert_eq. f_equal.
  rewrite insert_insert_eq. unfold with_domains. simpl.
  rewrite delete_insert_id by exact Hd.
  apply (put_org_same s id). rewrite Ho. by destruct o.
Qed.

(** X20: in the model of the organization service, reactivating an
    organization that was just deactivated, and deactivating one that was
    just reactivated, gives back the very state the first call started
    from. *)
Theorem deactivate_reactivate_round_trip (s s1 : Server) (id : string) :
  (DeactivateOrganization s id = (Ok (), s1) →
   ReactivateOrganization s1 id = (Ok (), s)) ∧
  (ReactivateOrganization s id = (Ok (), s1) →
   DeactivateOrganization s1 id = (Ok (), s)).
Proof.
  unfold DeactivateOrganization, ReactivateOrganization.
  split; (destruct (orgs s !! id) as [o|] eqn:Ho; [|discriminate]);
    destruct (org_state o) eqn:Hst; try discriminate;
    intros [= <-]; unfold put_org; simpl; rewrite lookup_insert_eq; simpl;
    f_equal; rewrite insert_insert_eq; apply (put_org_same s id); rewrite Ho;
    destruct o; simpl in *; by subst.
Qed.

(** ** Setting metadata *)

Lemma set_metadata_union (m : gmap string (list Byte.byte)) (metadata : list Metadata) :
  foldl (λ md e, <[Key e := Value e]> md) m metadata
  = list_to_map (reverse ((λ e, (Key e, Value e)) <$> metadata)) ∪ m.
Proof.
  revert m. induction metadata as [|e metadata IH]; intros m; simpl.
  - by rewrite (left_id_L ∅ (∪)).
  - rewrite IH, reverse_cons, list_to_map_app. simpl.
    rewrite <- (assoc_L (∪)). f_equal.
    by rewrite insert_empty, <- insert_union_singleton_l.
Qed.

Lemma set_metadata_other (m : gmap string (list Byte.byte)) (metadata : list Metadata)
    (k : string) :
  k ∉ Key <$> metadata →
  foldl (λ md e, <[Key e := Value e]> md) m metadata !! k = m !! k.
Proof.
  revert m. induction metadata as [|e metadata IH]; intros m Hk; simpl; [reflexivity|].
  simpl in Hk. apply not_elem_of_cons in Hk as [Hne Hk].
  rewrite IH by exact Hk. by apply lookup_insert_ne.
Qed.

(** X21: in the model of the organization service, setting metadata on an
    organization that exists succeeds; afterwards every key of the request
    has the value of its last entry, every other key has the value it had,
    and setting the same entries once more changes nothing. *)
Theorem set_metadata_upsert (s : Server) (id : string) (metadata : list Metadata) :
  is_Some (orgs s !! id) →
  ∃ s',
    SetOrganizationMetadata s id metadata = (Ok (), s') ∧
    (∀ before e after,
       metadata = before ++ e :: after → Key e ∉ Key <$> after →
       metadata_of s' id !! Key e = Some (Value e)) ∧
    (∀ k, k ∉ Key <$> metadata → metadata_of s' id !! k = metadata_of s id !! k) ∧
    SetOrganizationMetadata s' id metadata = (Ok (), s').
Proof.
  intros [o Ho]. unfold SetOrganizationMetadata. rewrite Ho.
  eexists. split; [reflexivity|].
  assert (Hmd : metadata_of s id = org_metadata o)
    by (unfold metadata_of; by rewrite Ho).
  rewrite Hmd, metadata_of_put_org. unfold with_metadata. cbn [org_metadata].
  split; [|split].
  - intros before e after -> Hlast. rewrite foldl_app. simpl.
    rewrite set_metadata_other by exact Hlast. apply lookup_insert_eq.
  - intros k Hk. by apply set_metadata_other.
  - unfold put_org. cbn [orgs issued]. rewrite lookup_insert_eq. f_equal.
    rewrite insert_insert_eq. f_equal. f_equal.
    cbn [org_name org_state org_domains org_metadata]. f_equal.
    rewrite !set_metadata_union.
    by rewrite (assoc_L (∪)), (idemp_L (∪)).
Qed.

(** ** Sample runs *)

Lemma createOrgs_calls_in_turn_witness :
  0 ≤ 2 ∧
  createOrgs CreateOrganization (λ _, "Acme"%string) 2 empty_server
  = Some match create_in_turn CreateOrganization
                 ((λ _, "Acme"%string) <$> seq 0 (Z.to_nat 2)) empty_server with
         | (Ok orgs, s') =>
             (Ok (Some <$> orgs, (λ _, "Acme"%string) <$> seq 0 (Z.to_nat 2)), s')
         | (Err err, s') => (Err err, s')
         end.
Proof.
  assert (Hn : 0 ≤ 2) by lia.
  split; [exact Hn|].
  exact (proj2 (createOrgs_calls_in_turn CreateOrganization (λ _, "Acme"%string)
                  2 empty_server) Hn).
Defined.

Lemma createOrgs_lengths_witness :
  createOrgs CreateOrganization (λ _, "Acme"%string) 2 empty_server
  = Some (Ok ([Some "0"; Some "1"], ["Acme"; "Acme"])%string,
          run empty_server [CallCreateOrganization "Acme"; CallCreateOrganization "Acme"]) ∧
  Z.of_nat (length [Some "0"; Some "1"]%string) = 2 ∧
  Forall is_Some [Some "0"; Some "1"]%string.
Proof.
  assert (Hc : createOrgs CreateOrganization (λ _, "Acme"%string) 2 empty_server
               = Some (Ok ([Some "0"; Some "1"], ["Acme"; "Acme"])%string,
                       run empty_server
                         [CallCreateOrganization "Acme"; CallCreateOrganization "Acme"]))
    by (vm_compute; reflexivity).
  destruct (createOrgs_lengths CreateOrganization (λ _, "Acme"%string) _ _ _ _ _ Hc)
    as (_ & Hlen & _ & Hsome & _).
  split; [exact Hc|]. split; [exact Hlen | exact Hsome].
Defined.


Lemma foundOrgs_all_found_witness :
  NoDup (Id <$> [mkOrganization "1" "Acme" ORG_STATE_ACTIVE;
                 mkOrganization "2" "Globex" ORG_STATE_INACTIVE;
                 mkOrganization "3" "Initech" ORG_STATE_ACTIVE]) ∧
  foundOrgs [mkOrganization "1" "Acme" ORG_STATE_ACTIVE;
             mkOrganization "2" "Globex" ORG_STATE_INACTIVE;
             mkOrganization "3" "Initech" ORG_STATE_ACTIVE]
            [mkOrganization "2" "Globex" ORG_STATE_ACTIVE]
  = length [mkOrganization "2" "Globex" ORG_STATE_ACTIVE] ∧
  ∃ got,
    got ∈ [mkOrganization "1" "Acme" ORG_STATE_ACTIVE;
           mkOrganization "2" "Globex" ORG_STATE_INACTIVE;
           mkOrganization "3" "Initech" ORG_STATE_ACTIVE] ∧
    "Globex"%string = Name got ∧ "2"%string = Id got.
Proof.
  assert (Hnd : NoDup (Id <$> [mkOrganization "1" "Acme" ORG_STATE_ACTIVE;
                               mkOrganization "2" "Globex" ORG_STATE_INACTIVE;
                               mkOrganization "3" "Initech" ORG_STATE_ACTIVE]))
    by (apply (bool_decide_unpack _); vm_compute; exact I).
  assert (Hcount : foundOrgs [mkOrganization "1" "Acme" ORG_STATE_ACTIVE;
                              mkOrganization "2" "Globex" ORG_STATE_INACTIVE;
                              mkOrganization "3" "Initech" ORG_STATE_ACTIVE]
                             [mkOrganization "2" "Globex" ORG_STATE_ACTIVE]
                   = length [mkOrganization "2" "Globex" ORG_STATE_ACTIVE])
    by reflexivity.
  split; [exact Hnd|]. split; [exact Hcount|].
  apply (proj1 (proj2 (foundOrgs_all_found _ _ Hnd)) Hcount
           (mkOrganization "2" "Globex" ORG_STATE_ACTIVE)).
  by left.
Defined.

Lemma add_delete_domain_round_trip_witness :
  AddOrganizationDomain sample_server "org1" "b.example"
  = (Ok (), step sample_server (CallAddOrganizationDomain "org1" "b.example")) ∧
  DeleteOrganizationDomain
    (step sample_server (CallAddOrganizationDomain "org1" "b.example")) "org1" "b.example"
  = (Ok (), sample_server).
Proof.
  assert (Ha : AddOrganizationDomain sample_server "org1" "b.example"
               = (Ok (), step sample_server (CallAddOrganizationDomain "org1" "b.example")))
    by (vm_compute; reflexivity).
  split; [exact Ha|].
  exact (proj1 (add_delete_domain_round_trip _ _ _ _ Ha)).
Defined.

Lemma deactivate_reactivate_round_trip_witness :
  DeactivateOrganization sample_server "org1"
  = (Ok (), step sample_server (CallDeactivateOrganization "org1")) ∧
  ReactivateOrganization (step sample_server (CallDeactivateOrganization "org1")) "org1"
  = (Ok (), sample_server).
Proof.
  assert (Hd : DeactivateOrganization sample_server "org1"
               = (Ok (), step sample_server (CallDeactivateOrganization "org1")))
    by (vm_compute; reflexivity).
  split; [exact Hd|].
  exact (proj1 (deactivate_reactivate_round_trip _ _ _) Hd).
Defined.

Lemma set_metadata_upsert_witness :
  is_Some (orgs sample_server !! "org1"%string) ∧
  ∃ s',
    SetOrganizationMetadata sample_server "org1"
      [mkMetadata "key5" [Byte.x31]; mkMetadata "key5" [Byte.x32]] = (Ok (), s') ∧
    metadata_of s' "org1" !! "key5"%string = Some [Byte.x32] ∧
    metadata_of s' "org1" !! "key4"%string = Some [Byte.x34].
Proof.
  assert (Hk : is_Some (orgs sample_server !! "org1"%string))
    by (eexists; vm_compute; reflexivity).
  destruct (set_metadata_upsert sample_server "org1"
              [mkMetadata "key5" [Byte.x31]; mkMetadata "key5" [Byte.x32]] Hk)
    as (s' & Hset & Hlast & Hother & _).
  split; [exact Hk|]. exists s'. split; [exact Hset|]. split.
  - apply (Hlast [mkMetadata "key5" [Byte.x31]] (mkMetadata "key5" [Byte.x32]) []).
    + reflexivity.
    + apply (bool_decide_unpack _). vm_compute. exact I.
  - rewrite (Hother "key4"%string).
    + vm_compute. reflexivity.
    + apply (bool_decide_unpack _). vm_compute. exact I.
Defined.
